(** * Plotting utilities of jupyter-activity-data ([utils.py])

    A shallow embedding of [savefig], [interpolate_one], [add_lines] and
    [plot_events], together with the part of the pandas / matplotlib
    behaviour these functions rely on.

    Conventions.
    - A timestamp is the number of nanoseconds since the epoch, in UTC
      (pandas' [Timestamp.value]); [pd.to_datetime(target, utc=True)] is
      the parsing step that produces it, so every function here takes the
      parsed instant.
    - Numeric values are exact rationals; [None] in an [option Q] stands
      for NaN.
    - Python exceptions are values of [exn], carried by [outcome]. *)

From Stdlib Require Import String Ascii.
From Stdlib Require Import ZArith QArith Qminmax List Bool Lia Lqa.
From Stdlib Require Import Permutation Sorted.
Import ListNotations.
Open Scope Z_scope.

(** ** Exceptions and the error monad *)

Inductive exn : Type :=
| KeyError
| ValueError
| NameError            (* UnboundLocalError is a subclass of NameError *)
| AttributeError
| TypeError
| FileNotFoundError
| NotADirectoryError
| IsADirectoryError.

Inductive outcome (A : Type) : Type :=
| Ok (a : A)
| Raise (e : exn).
Arguments Ok {A} a.
Arguments Raise {A} e.

Definition bind {A B : Type} (m : outcome A) (k : A -> outcome B) : outcome B :=
  match m with
  | Ok a => k a
  | Raise e => Raise e
  end.

Notation "x <- m ;; k" := (bind m (fun x => k))
  (at level 61, m at next level, right associativity).

(** ** pandas: time series *)

Module Pandas.

(** Timestamps are integers. *)
Abbreviation Timestamp := Z (only parsing).

(** One day in nanoseconds. *)
Definition DAY : Z := 86400000000000.

(** [Timestamp.normalize]: midnight of the timestamp's day. *)
Definition normalize (t : Timestamp) : Timestamp := t - t mod DAY.

(** A series with a [DatetimeIndex]: labels with their values, in storage
    order; labels may repeat. *)
Definition Series : Type := list (Timestamp * Q).

Definition index (s : Series) : list Timestamp := map fst s.

(** What an indexing expression yields: one number (possibly NaN) or, for a
    repeated label, the sub-series of all its rows. *)
Inductive item : Type :=
| Scalar (v : option Q)
| Sub (s : Series).

(** [target in ts.index] *)
Definition contains (ix : list Timestamp) (t : Timestamp) : bool :=
  existsb (Z.eqb t) ix.

(** [ts[target]] for a label. *)
Definition getitem (ts : Series) (t : Timestamp) : outcome item :=
  match filter (fun p => fst p =? t) ts with
  | [] => Raise KeyError
  | [(_, v)] => Ok (Scalar (Some v))
  | rows => Ok (Sub rows)
  end.

(** [Series.sort_index()]: ascending by label, rows with equal labels keep
    their order. *)
Fixpoint insert_by_index (p : Timestamp * Q) (l : Series) : Series :=
  match l with
  | [] => [p]
  | q :: r => if fst p <=? fst q then p :: q :: r
              else q :: insert_by_index p r
  end.

Definition sort_index (s : Series) : Series :=
  fold_right insert_by_index [] s.

(** [argmax] of a boolean array: the position of the first [True], 0 when
    there is none; numpy raises [ValueError] on an empty array. *)
Fixpoint first_true (l : list bool) : option nat :=
  match l with
  | [] => None
  | true :: _ => Some O
  | false :: r => option_map S (first_true r)
  end.

Definition argmax (l : list bool) : outcome Z :=
  match l with
  | [] => Raise ValueError
  | _ => Ok (match first_true l with
             | Some i => Z.of_nat i
             | None => 0
             end)
  end.

(** Python slice bounds: a negative bound counts from the end, and both
    bounds are clipped to the length. *)
Definition clip_bound (len i : Z) : Z :=
  if i <? 0 then Z.max 0 (i + len) else Z.min i len.

(** [s.iloc[start:stop]] *)
Definition iloc_slice {A : Type} (l : list A) (start stop : Z) : list A :=
  let len := Z.of_nat (length l) in
  let a := clip_bound len start in
  let b := clip_bound len stop in
  firstn (Z.to_nat (b - a)) (skipn (Z.to_nat a) l).

(** *** [resample("1d")]

    Daily bins are closed and labelled on the left and start at midnight
    of the first day: the upsampled index runs from [normalize (min)] to
    [normalize (max)] in steps of one day. *)
Definition day_range (first last : Timestamp) : list Timestamp :=
  map (fun k => normalize first + Z.of_nat k * DAY)
      (seq 0 (Z.to_nat ((normalize last - normalize first) / DAY + 1))).

Fixpoint has_dup (l : list Z) : bool :=
  match l with
  | [] => false
  | x :: r => existsb (Z.eqb x) r || has_dup r
  end.

Definition lookup (s : Series) (t : Timestamp) : option Q :=
  option_map snd (find (fun p => fst p =? t) s).

(** A series after upsampling: a label may hold NaN. *)
Definition NSeries : Type := list (Timestamp * option Q).

(** The upsampling step of [Resampler.interpolate] (pandas 1.x):
    [asfreq], i.e. the series reindexed on the daily grid. A grid label
    keeps a value only when it is a label of the series; reindexing a
    series with repeated labels raises [ValueError]. *)
Definition resample_1d (s : Series) : outcome NSeries :=
  match index s with
  | [] => Ok []
  | t0 :: ix =>
      if has_dup (index s) then Raise ValueError
      else Ok (map (fun g => (g, lookup s g))
                   (day_range (fold_right Z.min t0 ix) (fold_right Z.max t0 ix)))
  end.

(** *** [interpolate(method="time")]

    Linear in the label between the valid neighbours. With the default
    forward direction the NaNs before the first valid value stay, and the
    NaNs after the last valid value take that value. *)
Definition lerp (x0 : Z) (y0 : Q) (x1 : Z) (y1 : Q) (x : Z) : Q :=
  (y0 + (y1 - y0) * ((x - x0) # Z.to_pos (x1 - x0)))%Q.

Fixpoint next_valid (l : NSeries) : option (Timestamp * Q) :=
  match l with
  | [] => None
  | (x, Some y) :: _ => Some (x, y)
  | (_, None) :: r => next_valid r
  end.

Fixpoint interpolate_from (prev : option (Timestamp * Q)) (l : NSeries) : NSeries :=
  match l with
  | [] => []
  | (x, Some y) :: r => (x, Some y) :: interpolate_from (Some (x, y)) r
  | (x, None) :: r =>
      (x, match prev with
          | None => None
          | Some (x0, y0) =>
              match next_valid r with
              | Some (x1, y1) => Some (lerp x0 y0 x1 y1 x)
              | None => Some y0
              end
          end) :: interpolate_from prev r
  end.

Definition interpolate_time (l : NSeries) : NSeries := interpolate_from None l.

(** [s.loc[target]] on a series with distinct labels. *)
Definition loc (l : NSeries) (t : Timestamp) : outcome (option Q) :=
  match find (fun p => fst p =? t) l with
  | Some (_, v) => Ok v
  | None => Raise KeyError
  end.

End Pandas.

(** ** pandas: calendar fields and time buckets *)

Module Calendar.

(** Proleptic Gregorian date of a day number (days since 1970-01-01). *)
Definition civil_from_days (z : Z) : Z * Z * Z :=
  let z := z + 719468 in
  let era := z / 146097 in
  let doe := z - era * 146097 in
  let yoe := (doe - doe / 1460 + doe / 36524 - doe / 146096) / 365 in
  let doy := doe - (365 * yoe + yoe / 4 - yoe / 100) in
  let mp := (5 * doy + 2) / 153 in
  let d := doy - (153 * mp + 2) / 5 + 1 in
  let m := if mp <? 10 then mp + 3 else mp - 9 in
  (yoe + era * 400 + (if m <=? 2 then 1 else 0), m, d).

Definition days_from_civil (y m d : Z) : Z :=
  let y := if m <=? 2 then y - 1 else y in
  let era := y / 400 in
  let yoe := y - era * 400 in
  let doy := (153 * (if 2 <? m then m - 3 else m + 9) + 2) / 5 + d - 1 in
  let doe := yoe * 365 + yoe / 4 - yoe / 100 + doy in
  era * 146097 + doe - 719468.

(** [Series.dt.year] *)
Definition year_of (t : Pandas.Timestamp) : Z :=
  let '(y, _, _) := civil_from_days (t / Pandas.DAY) in y.

(** Months counted from year 0, and the month-end label of such a month. *)
Definition month_index (t : Pandas.Timestamp) : Z :=
  let '(y, m, _) := civil_from_days (t / Pandas.DAY) in y * 12 + (m - 1).

Definition month_end (mi : Z) : Pandas.Timestamp :=
  let mi' := mi + 1 in
  (days_from_civil (mi' / 12) (mi' mod 12 + 1) 1 - 1) * Pandas.DAY.

End Calendar.
(** ** pandas: the event table, grouping and reductions *)

Module Frame.
Import Pandas.

(** A cell of the event table. *)
Inductive value : Type :=
| VStr (s : string)
| VInt (z : Z)
| VTime (t : Timestamp).

Definition value_eqb (a b : value) : bool :=
  match a, b with
  | VStr s, VStr s' => String.eqb s s'
  | VInt z, VInt z' => z =? z'
  | VTime t, VTime t' => t =? t'
  | _, _ => false
  end.

(** The order used to sort group labels (labels of one column have one
    constructor). *)
Definition value_leb (a b : value) : bool :=
  match a, b with
  | VStr s, VStr s' => String.leb s s'
  | VInt z, VInt z' => z <=? z'
  | VTime t, VTime t' => t <=? t'
  | VStr _, _ => true
  | VInt _, VTime _ => true
  | _, _ => false
  end.

(** An event record. The tables modelled are complete: every row has a
    value in each of the five columns. Missing values (a null [org], say),
    which [groupby] and [count] treat apart, are outside the model. *)
Record Row : Type := mkRow {
  type : string;
  org : string;
  date : Timestamp;
  actor_id : Z;
  repo_name : string
}.

Definition DataFrame : Type := list Row.

(** Column access by name ([df[name]], [getattr(grouped, name)]). *)
Definition column_of (name : string) : option (Row -> value) :=
  if String.eqb name "type" then Some (fun r => VStr (type r))
  else if String.eqb name "org" then Some (fun r => VStr (org r))
  else if String.eqb name "date" then Some (fun r => VTime (date r))
  else if String.eqb name "actor_id" then Some (fun r => VInt (actor_id r))
  else if String.eqb name "repo_name" then Some (fun r => VStr (repo_name r))
  else None.

(** [Series.isin(values)] on a column of strings. *)
Definition isin (col : list string) (values : list string) : list bool :=
  map (fun c => existsb (String.eqb c) values) col.

(** Element-wise [&] of two boolean columns of the same table. *)
Fixpoint and_series (a b : list bool) : list bool :=
  match a, b with
  | x :: a', y :: b' => (x && y) :: and_series a' b'
  | _, _ => []
  end.

(** [df[mask]]: the rows whose mask entry is [True], in a new table. *)
Fixpoint boolean_index (df : DataFrame) (mask : list bool) : DataFrame :=
  match df, mask with
  | r :: df', m :: mask' =>
      if m then r :: boolean_index df' mask' else boolean_index df' mask'
  | _, _ => []
  end.

(** Group labels: the distinct labels, sorted ([groupby(sort=True)]). *)
Fixpoint insert_value (v : value) (l : list value) : list value :=
  match l with
  | [] => [v]
  | w :: r => if value_leb v w then v :: w :: r else w :: insert_value v r
  end.

Fixpoint distinct (l : list value) : list value :=
  match l with
  | [] => []
  | v :: r => if existsb (value_eqb v) r then distinct r else v :: distinct r
  end.

Definition group_labels (l : list value) : list value :=
  fold_right insert_value [] (distinct l).

(** The [freq] of [pd.Grouper]: ["D"] (calendar day) or ["M"] (month
    end, the default of [plot_events]). *)
Inductive Freq : Type := FreqD | FreqM.

(** The bin label of a timestamp. *)
Definition bucket (f : Freq) (t : Timestamp) : Timestamp :=
  match f with
  | FreqD => normalize t
  | FreqM => Calendar.month_end (Calendar.month_index t)
  end.

(** All bin labels from the bin of [lo] to the bin of [hi]. *)
Definition bins (f : Freq) (lo hi : Timestamp) : list Timestamp :=
  match f with
  | FreqD => day_range lo hi
  | FreqM =>
      let a := Calendar.month_index lo in
      map (fun k => Calendar.month_end (a + Z.of_nat k))
          (seq 0 (Z.to_nat (Calendar.month_index hi - a + 1)))
  end.

(** A reduction of the selected column within a group; [None] is NaN. *)
Definition Metric : Type := list value -> option Q.

(** [count] on complete tables: every value of the group is counted. *)
Definition count : Metric :=
  fun vs => Some (inject_Z (Z.of_nat (length vs))).

Definition nunique : Metric :=
  fun vs => Some (inject_Z (Z.of_nat (length (distinct vs)))).

Definition sum : Metric :=
  fun vs => Some (fold_right (fun v acc =>
                    match v with VInt z => (inject_Z z + acc)%Q | _ => acc end)
                  0%Q vs).

(** The shapes of aggregated data. *)
Inductive Data : Type :=
| GroupSeries (s : list (value * option Q))
| TimeSeries (s : list (Timestamp * option Q))
| MultiSeries (s : list (Timestamp * value * option Q))
| TimeFrame (index : list Timestamp) (columns : list (value * list (option Q))).

(** What [df.groupby(grouper)] holds. *)
Inductive GroupBy : Type :=
| ByKey (df : DataFrame) (key : Row -> value)
| ByTime (df : DataFrame) (f : Freq)
| ByTimeKey (df : DataFrame) (f : Freq) (key : Row -> value).

Definition rows_with (key : Row -> value) (k : value) (df : DataFrame) : DataFrame :=
  filter (fun r => value_eqb (key r) k) df.

Definition rows_in (f : Freq) (b : Timestamp) (df : DataFrame) : DataFrame :=
  filter (fun r => bucket f (date r) =? b) df.

Fixpoint insert_time (t : Timestamp) (l : list Timestamp) : list Timestamp :=
  match l with
  | [] => [t]
  | u :: r => if t <=? u then t :: u :: r else u :: insert_time t r
  end.

Definition sort_times (l : list Timestamp) : list Timestamp :=
  fold_right insert_time [] (nodup Z.eq_dec l).

Definition time_labels (f : Freq) (df : DataFrame) : list Timestamp :=
  sort_times (map (fun r => bucket f (date r)) df).

(** [getattr(grouped, column).<metric>()].
    - one key: one entry per observed label, sorted;
    - one time grouper: one entry per bin between the first and the last
      date, empty bins included;
    - time grouper and key: one entry per observed (bin, label) pair. *)
Definition group_values (df : DataFrame) (key col : Row -> value) (metric : Metric)
  : list (value * option Q) :=
  map (fun k => (k, metric (map col (rows_with key k df))))
      (group_labels (map key df)).

Definition aggregate (g : GroupBy) (col : Row -> value) (metric : Metric) : Data :=
  match g with
  | ByKey df key => GroupSeries (group_values df key col metric)
  | ByTime df f =>
      TimeSeries
        (match map date df with
         | [] => []
         | t0 :: ts =>
             map (fun b => (b, metric (map col (rows_in f b df))))
                 (bins f (fold_right Z.min t0 ts) (fold_right Z.max t0 ts))
         end)
  | ByTimeKey df f key =>
      MultiSeries
        (flat_map
           (fun b =>
              let rows := rows_in f b df in
              map (fun k => (b, k, metric (map col (rows_with key k rows))))
                  (group_labels (map key rows)))
           (time_labels f df))
  end.

(** [Series.unstack(-1)]: the last index level becomes the columns; a
    (bin, label) pair that was not observed holds NaN. A series without a
    second index level cannot be unstacked. *)
Definition cell (s : list (Timestamp * value * option Q)) (b : Timestamp) (k : value)
  : option Q :=
  match find (fun e => (fst (fst e) =? b) && value_eqb (snd (fst e)) k) s with
  | Some e => snd e
  | None => None
  end.

Definition unstack (d : Data) : outcome Data :=
  match d with
  | MultiSeries s =>
      let idx := sort_times (map (fun e => fst (fst e)) s) in
      let keys := group_labels (map (fun e => snd (fst e)) s) in
      Ok (TimeFrame idx (map (fun k => (k, map (fun b => cell s b k) idx)) keys))
  | _ => Raise ValueError
  end.

(** *** [rolling(k).mean()]

    pandas keeps a running sum and a running count of the non-NaN
    observations in the window: at position [i] the value that leaves the
    window (position [i - k]) is removed, the value at [i] is added, and
    the mean is reported when the window holds at least [min_periods = k]
    observations. *)
Definition add_mean (x : option Q) (st : Q * nat) : Q * nat :=
  match x with
  | Some v => ((fst st + v)%Q, S (snd st))
  | None => st
  end.

Definition remove_mean (x : option Q) (st : Q * nat) : Q * nat :=
  match x with
  | Some v => ((fst st - v)%Q, pred (snd st))
  | None => st
  end.

Definition calc_mean (minp : nat) (st : Q * nat) : option Q :=
  if (Nat.leb minp (snd st) && Nat.ltb 0 (snd st))%bool
  then Some (fst st / inject_Z (Z.of_nat (snd st)))%Q
  else None.

Fixpoint roll_mean_loop (k : nat) (values : list (option Q)) (i : nat)
    (st : Q * nat) (rest : list (option Q)) : list (option Q) :=
  match rest with
  | [] => []
  | x :: rest' =>
      let st := if Nat.leb k i then remove_mean (nth (i - k) values None) st else st in
      let st := add_mean x st in
      calc_mean k st :: roll_mean_loop k values (S i) st rest'
  end.

Definition roll_mean (k : nat) (values : list (option Q)) : list (option Q) :=
  roll_mean_loop k values 0 (0%Q, O) values.

Definition roll_labelled {A : Type} (k : nat) (s : list (A * option Q))
  : list (A * option Q) :=
  combine (map fst s) (roll_mean k (map snd s)).

Definition rolling_mean (k : Z) (d : Data) : outcome Data :=
  if k <? 0 then Raise ValueError
  else
    Ok (match d with
        | GroupSeries s => GroupSeries (roll_labelled (Z.to_nat k) s)
        | TimeSeries s => TimeSeries (roll_labelled (Z.to_nat k) s)
        | MultiSeries s => MultiSeries (roll_labelled (Z.to_nat k) s)
        | TimeFrame idx cols =>
            TimeFrame idx (map (fun c => (fst c, roll_mean (Z.to_nat k) (snd c))) cols)
        end).

(** *** [Series.nlargest(n)]

    NaN entries are dropped, the rest is ordered by decreasing value
    (entries of equal value in their original order) and the first [n] are
    kept. Only a series can be ranked without naming a column. *)
Fixpoint dropna {A : Type} (s : list (A * option Q)) : list (A * Q) :=
  match s with
  | [] => []
  | (k, Some v) :: r => (k, v) :: dropna r
  | (_, None) :: r => dropna r
  end.

Fixpoint insert_desc {A : Type} (e : A * Q) (l : list (A * Q)) : list (A * Q) :=
  match l with
  | [] => [e]
  | f :: r => if Qle_bool (snd f) (snd e) then e :: f :: r
              else f :: insert_desc e r
  end.

Definition sort_desc {A : Type} (l : list (A * Q)) : list (A * Q) :=
  fold_right insert_desc [] l.

Definition top {A : Type} (n : Z) (s : list (A * option Q)) : list (A * Q) :=
  firstn (Z.to_nat n) (sort_desc (dropna s)).

Definition with_values {A : Type} (l : list (A * Q)) : list (A * option Q) :=
  map (fun e => (fst e, Some (snd e))) l.

Definition nlargest (n : Z) (d : Data) : outcome Data :=
  match d with
  | GroupSeries s => Ok (GroupSeries (with_values (top n s)))
  | TimeSeries s => Ok (TimeSeries (with_values (top n s)))
  | MultiSeries s => Ok (MultiSeries (with_values (top n s)))
  | TimeFrame _ _ => Raise TypeError
  end.

End Frame.

(** ** The process state: objects, the active figure, files, output *)

Module Matplotlib.
Import Pandas Frame.

Inductive argval : Type :=
| AStr (s : string)
| ANum (z : Z).

Definition argval_eqb (a b : argval) : bool :=
  match a, b with
  | AStr s, AStr s' => String.eqb s s'
  | ANum z, ANum z' => z =? z'
  | _, _ => false
  end.

(** Keyword arguments ([**kwargs]): a dict, fresh in every call. *)
Definition kwargs : Type := list (string * argval).

Definition get (d : kwargs) (k : string) : option argval :=
  option_map snd (find (fun e => String.eqb (fst e) k) d).

(** [dict.setdefault(k, v)] *)
Definition setdefault (d : kwargs) (k : string) (v : argval) : kwargs :=
  match get d k with
  | Some _ => d
  | None => d ++ [(k, v)]
  end.

(** What has been drawn on the active axes. The arguments that
    [add_lines] passes as constants (coordinate systems, arrow style) are
    not recorded. *)
Inductive artist : Type :=
| Annotation (text : string) (xy : Timestamp * item) (xytext : Z * Z)
             (horizontalalignment : string)
| Plot (data : Data) (args : kwargs)
| Grid (visible : bool).

Definition ref : Type := nat.

Record World : Type := mkWorld {
  heap : list DataFrame;          (* the tables alive, addressed by position *)
  figure : list artist;           (* the active figure *)
  dirs : list string;             (* the directories that exist *)
  files : list (string * (list artist * kwargs));
  stdout : list string
}.

(** Computations that read and change the world and may raise. *)
Definition M (A : Type) : Type := World -> World * outcome A.

Definition ret {A : Type} (a : A) : M A := fun w => (w, Ok a).

Definition bindM {A B : Type} (m : M A) (k : A -> M B) : M B :=
  fun w => match m w with
           | (w', Ok a) => k a w'
           | (w', Raise e) => (w', Raise e)
           end.

Definition lift {A : Type} (o : outcome A) : M A := fun w => (w, o).

Definition deref (w : World) (r : ref) : DataFrame := nth r (heap w) [].

Definition alloc (w : World) (df : DataFrame) : ref * World :=
  (length (heap w),
   mkWorld (heap w ++ [df]) (figure w) (dirs w) (files w) (stdout w)).

(** Drawing on the active figure. The options are recorded as passed;
    the errors the plotting library raises on options it does not accept
    are outside the model. *)
Definition draw (a : artist) : M unit :=
  fun w => (mkWorld (heap w) (figure w ++ [a]) (dirs w) (files w) (stdout w), Ok tt).

Definition print (s : string) : M unit :=
  fun w => (mkWorld (heap w) (figure w) (dirs w) (files w) (stdout w ++ [s]), Ok tt).

(** [Path.joinpath]: an absolute second part replaces the first. *)
Definition is_absolute (p : string) : bool :=
  match p with
  | String c _ => Ascii.eqb c "/"
  | EmptyString => false
  end.

Definition joinpath (base name : string) : string :=
  if is_absolute name then name else (base ++ "/" ++ name)%string.

(** The directory part of a path: what precedes its last ["/"]. *)
Fixpoint before_last_slash (p : string) : option string :=
  match p with
  | EmptyString => None
  | String c r =>
      match before_last_slash r with
      | Some d => Some (String c d)
      | None => if Ascii.eqb c "/" then Some EmptyString else None
      end
  end.

Definition parent (p : string) : string :=
  match before_last_slash p with
  | Some EmptyString => "/"
  | Some d => d
  | None => "."
  end.

(** The file system holds directories ([dirs]) and regular files
    ([files]). [Path.exists] is true of either kind of entry. *)
Definition is_dir (w : World) (p : string) : bool :=
  existsb (String.eqb p) (dirs w).

Definition is_file (w : World) (p : string) : bool :=
  existsb (String.eqb p) (map fst (files w)).

Definition path_exists (w : World) (p : string) : bool :=
  is_dir w p || is_file w p.

(** [plt.savefig(dest, **params)]: writes the active figure, replacing a
    file already at [dest]. Opening the file fails when its directory does
    not exist ([FileNotFoundError]) or is a regular file
    ([NotADirectoryError]), and when [dest] is itself a directory
    ([IsADirectoryError]). *)
Definition plt_savefig (dest : string) (params : kwargs) : M unit :=
  fun w =>
    if is_dir w (parent dest)
    then if is_dir w dest then (w, Raise IsADirectoryError)
         else (mkWorld (heap w) (figure w) (dirs w)
                 ((dest, (figure w, params))
                    :: filter (fun f => negb (String.eqb (fst f) dest)) (files w))
                 (stdout w), Ok tt)
    else if is_file w (parent dest) then (w, Raise NotADirectoryError)
    else (w, Raise FileNotFoundError).

End Matplotlib.
(** ** utils.py *)

Module Utils.
Import Pandas Frame Matplotlib.

Notation "x <~ m ;; k" := (bindM m (fun x => k))
  (at level 61, m at next level, right associativity).

(** [dest_dir]: fixed when the module is loaded, below the home directory
    of the user. *)
Definition dest_dir (home : string) : string :=
  (home ++ "/Documents/Jupyter/pres/2020/jupytercon")%string.

(** [savefig(name, **savefig_params)] *)
Definition savefig (home : string) (name : string) (savefig_params : kwargs) : M unit :=
  fun w =>
    let dest := joinpath (dest_dir home) (name ++ ".pdf")%string in
    if negb (path_exists w (dest_dir home)) then (w, Ok tt)
    else
      (_ <~ plt_savefig dest savefig_params ;;
       print ("Saved " ++ dest)%string) w.

(** [interpolate_one(ts, target)] *)
Definition interpolate_one (ts : Series) (target : Timestamp) : outcome item :=
  if contains (index ts) target then getitem ts target
  else
    let ts1 := sort_index ts in
    b <- argmax (map (fun t => target <? t) (index ts1)) ;;
    let s := iloc_slice ts1 (b - 1) (b + 1) in
    r <- resample_1d s ;;
    v <- loc (interpolate_time r) target ;;
    Ok (Scalar v).

(** An annotation map: dates with their texts, in iteration order. *)
Definition Lines : Type := list (Timestamp * string).

(** The two placements of a label: offset in points and alignment. *)
Definition placement (i : nat) (alternate : bool) : (Z * Z) * string :=
  if (Nat.eqb (Nat.modulo i 2) 0 || negb alternate)%bool
  then ((-64, 100), "right"%string)
  else ((64, -80), "left"%string).

(** The loop of [add_lines], from position [i] on. *)
Fixpoint add_lines_from (sample : Series) (alternate : bool) (i : nat)
    (items : Lines) : M unit :=
  match items with
  | [] => ret tt
  | (date, text) :: rest =>
      let '(xy, align) := placement i alternate in
      y <~ lift (interpolate_one sample date) ;;
      _ <~ draw (Annotation text (date, y) xy align) ;;
      add_lines_from sample alternate (S i) rest
  end.

(** [add_lines(sample, lines=None, alternate=True)]; [config_dates] is
    [config["dates"]], read from [cfg.yaml] when the module is loaded. *)
Definition add_lines (config_dates : Lines) (sample : Series)
    (lines : option Lines) (alternate : bool) : M unit :=
  let lines := match lines with
               | None => config_dates
               | Some l => l
               end in
  add_lines_from sample alternate 0 lines.

(** An argument that is a string or a list of strings ([events], [org]). *)
Inductive names : Type :=
| One (s : string)
| Many (l : list string).

(** Truth value of an optional argument. *)
Definition given_names (a : option names) : bool :=
  match a with
  | None => false
  | Some (One s) => negb (String.eqb s EmptyString)
  | Some (Many l) => negb (Nat.eqb (length l) 0)
  end.

Definition given_name (a : option string) : bool :=
  match a with
  | None => false
  | Some s => negb (String.eqb s EmptyString)
  end.

(** [if isinstance(x, str): x = [x]] *)
Definition as_list (a : option names) : list string :=
  match a with
  | Some (One s) => [s]
  | Some (Many l) => l
  | None => []
  end.

(** [mask &= column]: [mask] starts as the constant [True] ([None]). *)
Definition and_mask (mask : option (list bool)) (c : list bool) : option (list bool) :=
  match mask with
  | None => Some c
  | Some m => Some (and_series m c)
  end.

(** The filtering step (lines 91-103): the mask over the rows of [df]. *)
Definition build_mask (df : DataFrame) (events org : option names)
    (since : option Timestamp) (year : option Z) : option (list bool) :=
  let mask := None in
  let mask := if given_names events
              then and_mask mask (isin (map type df) (as_list events))
              else mask in
  let mask := if given_names org
              then and_mask mask (isin (map Frame.org df) (as_list org))
              else mask in
  let mask := match since with
              | Some s => and_mask mask (map (fun r => s <=? date r) df)
              | None => mask
              end in
  let mask := match year with
              | Some y =>
                  if y =? 0 then mask
                  else and_mask mask
                         (map (fun r => Calendar.year_of (date r) =? y) df)
              | None => mask
              end in
  mask.

(** The value of [grouper]: the [groupby] argument itself, or the list
    made of the time grouper and, when it is not [None], [groupby]. *)
Inductive Grouper : Type :=
| Key (groupby : option string)
| TimeAnd (freq : Freq) (groupby : option string).

Definition given_grouper (g : Grouper) : bool :=
  match g with
  | Key groupby => given_name groupby
  | TimeAnd _ _ => true
  end.

(** [df.groupby(grouper)]: a key that is not a column raises [KeyError];
    grouping by [None] raises [TypeError]. *)
Definition groupby_frame (df : DataFrame) (g : Grouper) : outcome GroupBy :=
  match g with
  | Key None => Raise TypeError
  | Key (Some name) =>
      match column_of name with
      | Some key => Ok (ByKey df key)
      | None => Raise KeyError
      end
  | TimeAnd f None => Ok (ByTime df f)
  | TimeAnd f (Some name) =>
      match column_of name with
      | Some key => Ok (ByTimeKey df f key)
      | None => Raise KeyError
      end
  end.

(** [getattr(grouped, column)] for the name of a column; any other name
    is taken to be unknown to the grouped object as well. The names of
    its own attributes and methods ([obj], [groups], ...), which [getattr]
    would find, are outside the model. *)
Definition select_column (column : string) : outcome (Row -> value) :=
  match column_of column with
  | Some col => Ok col
  | None => Raise AttributeError
  end.

(** Lines 108-136: grouping, aggregation and post-processing of the table
    [df]; [grouped] is bound only when [grouper] is true. *)
Definition aggregate_events (df : DataFrame) (n : Z) (freq : Freq)
    (groupby : option string) (column : string) (metric : Metric)
    (timeseries : bool) (smooth : option Z) : outcome Data :=
  let grouper := if timeseries then TimeAnd freq groupby else Key groupby in
  grouped <- (if given_grouper grouper
              then g <- groupby_frame df grouper ;; Ok (Some g)
              else Ok None) ;;
  g <- match grouped with
       | Some g => Ok g
       | None => Raise NameError
       end ;;
  col <- select_column column ;;
  let data := aggregate g col metric in
  if timeseries then
    data <- (if given_name groupby then unstack data else Ok data) ;;
    match smooth with
    | Some k => if k =? 0 then Ok data else rolling_mean k data
    | None => Ok data
    end
  else nlargest n data.

(** The keyword arguments handed to [data.plot] (lines 112-117). *)
Definition plot_defaults (timeseries : bool) (plot_args : kwargs) : kwargs :=
  if timeseries then
    let plot_args := setdefault plot_args "kind" (AStr "area") in
    if match get plot_args "kind" with
       | Some v => argval_eqb v (AStr "area")
       | None => false
       end
    then setdefault plot_args "linewidth" (ANum 0)
    else plot_args
  else setdefault plot_args "kind" (AStr "bar").

(** [plot_events(df, events, org, since, year, n, freq, groupby, column,
    metric, timeseries, smooth, **plot_args)]. [df] is a reference to the
    caller's table; [df = df[mask]] rebinds the local name to a new
    table. [freq] is the frequency the string denotes and [metric] the
    reduction that the method name selects on the grouped column;
    [data.plot] and [plt.grid] are recorded on the active figure. *)
Definition plot_events (df : ref) (events org : option names)
    (since : option Timestamp) (year : option Z) (n : Z) (freq : Freq)
    (groupby : option string) (column : string) (metric : Metric)
    (timeseries : bool) (smooth : option Z) (plot_args : kwargs) : M Data :=
  fun w =>
    let mask := build_mask (deref w df) events org since year in
    let '(df, w) := match mask with
                    | Some m => alloc w (boolean_index (deref w df) m)
                    | None => (df, w)
                    end in
    let plot_args := plot_defaults timeseries plot_args in
    (data <~ lift (aggregate_events (deref w df) n freq groupby column metric
                     timeseries smooth) ;;
     _ <~ draw (Plot data plot_args) ;;
     _ <~ (if negb timeseries then draw (Grid false) else ret tt) ;;
     ret data) w.

End Utils.
(** ** Notions used to state the properties *)

Module Spec.
Import Pandas Frame Matplotlib Utils.

(** Ascending by label. *)
Definition by_label (a b : Timestamp * Q) : Prop := fst a <= fst b.

(** Descending by value. *)
Definition by_value_desc {A : Type} (a b : A * Q) : Prop := (snd b <= snd a)%Q.


(** The world after drawing the artists [l]. *)
Definition drawn (w : World) (l : list artist) : World :=
  mkWorld (heap w) (figure w ++ l) (dirs w) (files w) (stdout w).

(** The rows that pass every filter that is given; a filter that is not
    given lets every row pass. *)
Definition selected (events org : option names) (since : option Timestamp)
    (year : option Z) (r : Row) : bool :=
  (if given_names events then existsb (String.eqb (type r)) (as_list events)
   else true)
  && (if given_names org then existsb (String.eqb (Frame.org r)) (as_list org)
      else true)
  && match since with
     | Some s => s <=? date r
     | None => true
     end
  && match year with
     | Some y => if y =? 0 then true else Calendar.year_of (date r) =? y
     | None => true
     end.

(** The table that [plot_events] groups: the caller's table, or the
    table made by [df[mask]]. *)
Definition filtered (df : DataFrame) (events org : option names)
    (since : option Timestamp) (year : option Z) : DataFrame :=
  match build_mask df events org since year with
  | Some m => boolean_index df m
  | None => df
  end.

(** Sum and number of the observations (non-NaN entries) at the [len]
    positions from [a] on. *)
Fixpoint window_sum (xs : list (option Q)) (a len : nat) : Q :=
  match len with
  | O => 0%Q
  | S len' =>
      (match nth a xs None with Some v => v | None => 0 end
       + window_sum xs (S a) len')%Q
  end.

Fixpoint window_obs (xs : list (option Q)) (a len : nat) : nat :=
  match len with
  | O => O
  | S len' =>
      ((match nth a xs None with Some _ => 1 | None => 0 end)
       + window_obs xs (S a) len')%nat
  end.

(** The arithmetic mean of the entries at positions [a .. a + len - 1];
    NaN as soon as one of them is NaN. *)
Definition window_mean (xs : list (option Q)) (a len : nat) : option Q :=
  if Nat.eqb (window_obs xs a len) len
  then Some (window_sum xs a len / inject_Z (Z.of_nat len))%Q
  else None.

(** The trailing mean of window [k] at position [i]: the mean of the
    positions [i - k + 1 .. i], NaN before position [k - 1]. *)
Definition trailing_mean (k : nat) (xs : list (option Q)) (i : nat) : option Q :=
  if Nat.leb k (i + 1) then window_mean xs (i + 1 - k) k else None.

(** The running state of the loop before position [i]: sum and number of
    the observations at the positions [i - k .. i - 1]. *)
Definition tracks (k : nat) (xs : list (option Q)) (i : nat) (st : Q * nat) : Prop :=
  (fst st == window_sum xs (i - k) (Nat.min i k))%Q /\
  snd st = window_obs xs (i - k) (Nat.min i k).

(** Equality of numbers that may be NaN, up to the representation of
    rationals. *)
Definition same (a b : option Q) : Prop :=
  match a, b with
  | Some x, Some y => (x == y)%Q
  | None, None => True
  | _, _ => False
  end.

Definition trailing (k : nat) (xs ys : list (option Q)) : Prop :=
  length ys = length xs /\
  forall i, (i < length xs)%nat -> same (nth i ys None) (trailing_mean k xs i).

(** [d'] is [d] smoothed with window [k] along the time axis: same
    labels, and every column of values replaced by its trailing mean. *)
Definition smoothed (k : nat) (d d' : Data) : Prop :=
  match d, d' with
  | GroupSeries s, GroupSeries s' =>
      map fst s' = map fst s /\ trailing k (map snd s) (map snd s')
  | TimeSeries s, TimeSeries s' =>
      map fst s' = map fst s /\ trailing k (map snd s) (map snd s')
  | MultiSeries s, MultiSeries s' =>
      map fst s' = map fst s /\ trailing k (map snd s) (map snd s')
  | TimeFrame idx cols, TimeFrame idx' cols' =>
      idx' = idx /\ map fst cols' = map fst cols /\
      Forall2 (fun c c' => trailing k (snd c) (snd c')) cols cols'
  | _, _ => False
  end.

End Spec.
(** ** Further notions used to state properties *)

Module SpecMore.
Import Pandas Frame Matplotlib Utils.

(** The annotations for the entries [lines] with the heights [ys], the
    first entry being at position [i]. *)
Fixpoint labels (alternate : bool) (i : nat) (lines : Lines) (ys : list item)
  : list artist :=
  match lines, ys with
  | (date, text) :: lines', y :: ys' =>
      Annotation text (date, y) (fst (placement i alternate))
        (snd (placement i alternate))
      :: labels alternate (S i) lines' ys'
  | _, _ => []
  end.

(** The same data up to the representation of rationals. *)
Definition same_columns (c c' : value * list (option Q)) : Prop :=
  fst c' = fst c /\ Forall2 Spec.same (snd c) (snd c').

Definition same_data (d d' : Data) : Prop :=
  match d, d' with
  | GroupSeries s, GroupSeries s' =>
      map fst s' = map fst s /\ Forall2 Spec.same (map snd s) (map snd s')
  | TimeSeries s, TimeSeries s' =>
      map fst s' = map fst s /\ Forall2 Spec.same (map snd s) (map snd s')
  | MultiSeries s, MultiSeries s' =>
      map fst s' = map fst s /\ Forall2 Spec.same (map snd s) (map snd s')
  | TimeFrame idx cols, TimeFrame idx' cols' =>
      idx' = idx /\ Forall2 same_columns cols cols'
  | _, _ => False
  end.

End SpecMore.
(** * Properties *)

Import Pandas Frame Matplotlib Utils Spec.

(** ** Sorting by label *)

Module SortFacts.

Lemma insert_by_index_perm (p : Timestamp * Q) (l : Series) :
  Permutation (insert_by_index p l) (p :: l).
Proof.
  induction l as [| q r IH]; simpl.
  - apply Permutation_refl.
  - destruct (fst p <=? fst q).
    + apply Permutation_refl.
    + eapply perm_trans; [apply perm_skip, IH | apply perm_swap].
Qed.

Lemma sort_index_perm (s : Series) : Permutation (sort_index s) s.
Proof.
  induction s as [| p r IH]; simpl.
  - constructor.
  - eapply perm_trans; [apply insert_by_index_perm | apply perm_skip, IH].
Qed.

Lemma insert_by_index_sorted (p : Timestamp * Q) (l : Series) :
  StronglySorted by_label l -> StronglySorted by_label (insert_by_index p l).
Proof.
  induction 1 as [| q r Hr IH Hq]; simpl.
  - repeat constructor.
  - destruct (fst p <=? fst q) eqn:E.
    + apply Z.leb_le in E. constructor.
      * constructor; assumption.
      * constructor; [exact E |].
        eapply Forall_impl; [| exact Hq].
        unfold by_label; intros; lia.
    + apply Z.leb_gt in E. constructor; [exact IH |].
      eapply Permutation_Forall.
      * apply Permutation_sym, insert_by_index_perm.
      * constructor; [unfold by_label; lia | exact Hq].
Qed.

Lemma sort_index_sorted (s : Series) : StronglySorted by_label (sort_index s).
Proof.
  induction s as [| p r IH]; simpl.
  - constructor.
  - apply insert_by_index_sorted, IH.
Qed.

(** Around two consecutive rows of a sorted series, the rows before are
    not later than the first and the rows after not earlier than the
    second. *)
Lemma sorted_split (pre post : Series) (a b : Timestamp * Q) :
  StronglySorted by_label (pre ++ a :: b :: post) ->
  Forall (fun x => fst x <= fst a) pre /\ fst a <= fst b /\
  Forall (fun x => fst b <= fst x) post.
Proof.
  induction pre as [| x pre IH]; simpl; intros H.
  - inversion H as [| ? ? Hs Ha]; subst.
    inversion Ha as [| ? ? Hab _]; subst.
    inversion Hs as [| ? ? _ Hb]; subst.
    repeat split; [constructor | exact Hab | exact Hb].
  - inversion H as [| ? ? Hs Hx]; subst.
    destruct (IH Hs) as (Hpre & Hab & Hpost).
    repeat split; [| exact Hab | exact Hpost].
    constructor; [| exact Hpre].
    rewrite Forall_app in Hx. destruct Hx as [_ Hx].
    inversion Hx; subst. assumption.
Qed.

End SortFacts.

(** ** [interpolate_one] *)

Module InterpolateFacts.
Import SortFacts.

Lemma contains_In (ix : list Timestamp) (t : Timestamp) :
  contains ix t = true <-> In t ix.
Proof.
  unfold contains. rewrite existsb_exists. split.
  - intros (x & Hx & E). apply Z.eqb_eq in E. subst. exact Hx.
  - intros H. exists t. split; [exact H | apply Z.eqb_refl].
Qed.

Lemma contains_false (ix : list Timestamp) (t : Timestamp) :
  ~ In t ix -> contains ix t = false.
Proof.
  intros H. destruct (contains ix t) eqn:E; [| reflexivity].
  apply contains_In in E. contradiction.
Qed.

Lemma filter_label_none (s : Series) (t : Timestamp) :
  ~ In t (index s) -> filter (fun p => fst p =? t) s = [].
Proof.
  induction s as [| [u v] r IH]; simpl; intros H; [reflexivity |].
  destruct (u =? t) eqn:E.
  - apply Z.eqb_eq in E. exfalso. apply H. left. exact E.
  - apply IH. intros Hin. apply H. right. exact Hin.
Qed.

Lemma filter_label_unique (s : Series) (t : Timestamp) (v : Q) :
  NoDup (index s) -> In (t, v) s -> filter (fun p => fst p =? t) s = [(t, v)].
Proof.
  induction s as [| [u x] r IH]; simpl; intros Hnd Hin; [contradiction |].
  inversion Hnd as [| ? ? Hu Hr]; subst.
  destruct Hin as [E | Hin].
  - inversion E; subst. rewrite Z.eqb_refl.
    rewrite filter_label_none by exact Hu. reflexivity.
  - destruct (u =? t) eqn:E.
    + apply Z.eqb_eq in E. subst. exfalso. apply Hu.
      change t with (fst (t, v)). apply in_map. exact Hin.
    + apply IH; assumption.
Qed.

(** Position of the first label after [target] in a sorted series. *)
Lemma first_true_after (pre post : list Timestamp) (b target : Timestamp) :
  Forall (fun x => x <= target) pre -> target < b ->
  first_true (map (fun t => target <? t) (pre ++ b :: post)) = Some (length pre).
Proof.
  intros Hpre Hb. induction Hpre as [| x pre Hx _ IH]; simpl.
  - apply Z.ltb_lt in Hb. rewrite Hb. reflexivity.
  - assert (E : (target <? x) = false) by (apply Z.ltb_ge; exact Hx).
    rewrite E, IH. reflexivity.
Qed.

Lemma iloc_pair {A : Type} (pre post : list A) (a b : A) :
  iloc_slice (pre ++ a :: b :: post)
    (Z.of_nat (S (length pre)) - 1) (Z.of_nat (S (length pre)) + 1) = [a; b].
Proof.
  unfold iloc_slice, clip_bound.
  rewrite length_app. simpl length.
  destruct (Z.of_nat (S (length pre)) - 1 <? 0) eqn:E1; [apply Z.ltb_lt in E1; lia |].
  destruct (Z.of_nat (S (length pre)) + 1 <? 0) eqn:E2; [apply Z.ltb_lt in E2; lia |].
  replace (Z.min (Z.of_nat (S (length pre)) - 1) _) with (Z.of_nat (length pre)) by lia.
  replace (Z.min (Z.of_nat (S (length pre)) + 1) _) with (Z.of_nat (length pre) + 2) by lia.
  replace (Z.to_nat (Z.of_nat (length pre) + 2 - Z.of_nat (length pre))) with 2%nat by lia.
  rewrite Nat2Z.id.
  rewrite skipn_app, skipn_all, Nat.sub_diag. reflexivity.
Qed.

(** The two-point neighbourhood: for a target strictly between two
    consecutive rows of the sorted series, [interpolate_one] interpolates
    over exactly these two rows. *)
Lemma interpolate_one_between (ts pre post : Series) (t1 t2 target : Timestamp)
    (v1 v2 : Q) :
  sort_index ts = pre ++ (t1, v1) :: (t2, v2) :: post ->
  t1 < target < t2 ->
  interpolate_one ts target =
    (r <- resample_1d [(t1, v1); (t2, v2)] ;;
     v <- loc (interpolate_time r) target ;;
     Ok (Scalar v)).
Proof.
  intros Hs Ht.
  pose proof (sort_index_sorted ts) as Hsorted. rewrite Hs in Hsorted.
  destruct (sorted_split _ _ _ _ Hsorted) as (Hpre & _ & Hpost). simpl in Hpre, Hpost.
  assert (Hnot : ~ In target (index ts)).
  { intros Hin.
    assert (Hin' : In target (index (sort_index ts))).
    { unfold index. eapply Permutation_in; [| exact Hin].
      apply Permutation_map, Permutation_sym, sort_index_perm. }
    rewrite Hs in Hin'. unfold index in Hin'.
    rewrite map_app in Hin'. simpl in Hin'.
    apply in_app_or in Hin'. rewrite Forall_forall in Hpre, Hpost.
    destruct Hin' as [Hin' | [E | [E | Hin']]]; try lia.
    - apply in_map_iff in Hin'. destruct Hin' as (x & Ex & Hx).
      specialize (Hpre x Hx). simpl in Hpre. lia.
    - apply in_map_iff in Hin'. destruct Hin' as (x & Ex & Hx).
      specialize (Hpost x Hx). simpl in Hpost. lia. }
  unfold interpolate_one. rewrite (contains_false _ _ Hnot). rewrite Hs.
  assert (Hb : argmax (map (fun t => target <? t)
                         (index (pre ++ (t1, v1) :: (t2, v2) :: post)))
               = Ok (Z.of_nat (S (length pre)))).
  { unfold index. rewrite map_app. simpl map.
    change (map fst pre ++ t1 :: t2 :: map fst post)
      with (map fst pre ++ [t1] ++ t2 :: map fst post).
    rewrite app_assoc.
    unfold argmax.
    rewrite first_true_after.
    - rewrite length_app, length_map. simpl length.
      replace (length pre + 1)%nat with (S (length pre)) by lia.
      destruct (map _ _) eqn:E; [| reflexivity].
      apply (f_equal (@length bool)) in E. rewrite length_map, length_app in E.
      simpl in E. lia.
    - apply Forall_app. split.
      + rewrite Forall_map. eapply Forall_impl; [| exact Hpre]. simpl. intros; lia.
      + constructor; [lia | constructor].
    - lia. }
  rewrite Hb. cbn [bind]. rewrite iloc_pair. reflexivity.
Qed.

End InterpolateFacts.
(** ** The daily grid and interpolation on it *)

Module GridFacts.

Lemma DAY_pos : 0 < DAY.
Proof. reflexivity. Qed.

Lemma normalize_aligned (t : Timestamp) : t mod DAY = 0 -> normalize t = t.
Proof. unfold normalize. intros ->. lia. Qed.

Lemma normalize_mod (t : Timestamp) : normalize t mod DAY = 0.
Proof.
  unfold normalize. pose proof DAY_pos.
  rewrite Zminus_mod_idemp_r, Z.sub_diag. apply Z.mod_0_l. lia.
Qed.

(** Every label of the daily grid is a midnight. *)
Lemma day_range_midnight (a b g : Timestamp) :
  In g (day_range a b) -> g mod DAY = 0.
Proof.
  unfold day_range. intros H. apply in_map_iff in H.
  destruct H as (k & <- & _). pose proof DAY_pos.
  rewrite Z.add_mod, Z.mod_mul, normalize_mod by lia. reflexivity.
Qed.

(** Between two midnights the grid starts at the first, ends at the
    second, and holds the midnights strictly between them. *)
Lemma day_range_split (t1 t2 : Timestamp) :
  t1 mod DAY = 0 -> t2 mod DAY = 0 -> t1 < t2 ->
  exists mids,
    day_range t1 t2 = t1 :: mids ++ [t2] /\
    (forall g, In g mids <-> (t1 < g < t2 /\ g mod DAY = 0)).
Proof.
  intros H1 H2 Hlt. pose proof DAY_pos as HD.
  unfold day_range. rewrite !normalize_aligned by assumption.
  assert (Hq : t2 - t1 = DAY * ((t2 - t1) / DAY)).
  { apply Z_div_exact_full_2; [lia |]. rewrite Zminus_mod, H1, H2. reflexivity. }
  set (q := (t2 - t1) / DAY) in *. clearbody q.
  assert (Hq1 : 1 <= q) by (clear H1 H2; nia).
  destruct (Z.to_nat q) as [| m] eqn:Em; [lia |].
  assert (Hm : Z.of_nat (S m) = q) by lia.
  replace (Z.to_nat (q + 1)) with (S (S m)) by lia.
  exists (map (fun k => t1 + Z.of_nat k * DAY) (seq 1 m)). split.
  - change (seq 0 (S (S m))) with (0%nat :: seq 1 (S m)).
    rewrite seq_S, map_cons, map_app. cbn [map].
    f_equal; [lia |]. f_equal. f_equal.
    change (1 + m)%nat with (S m). rewrite Hm. lia.
  - intros g. rewrite in_map_iff. split.
    + intros (k & <- & Hk). apply in_seq in Hk. split.
      * clear H1 H2. nia.
      * rewrite Z.add_mod, Z.mod_mul, H1 by lia. reflexivity.
    + intros (Hg & Hgm).
      assert (Hgq : g - t1 = DAY * ((g - t1) / DAY)).
      { apply Z_div_exact_full_2; [lia |]. rewrite Zminus_mod, H1, Hgm. reflexivity. }
      set (j := (g - t1) / DAY) in *. clearbody j.
      assert (Hj : 1 <= j < q) by (clear H1 H2 Hgm; nia).
      exists (Z.to_nat j). split.
      * rewrite Z2Nat.id by lia. lia.
      * apply in_seq. lia.
Qed.

Lemma interpolate_from_labels (prev : option (Timestamp * Q)) (l : NSeries) :
  map fst (interpolate_from prev l) = map fst l.
Proof.
  revert prev. induction l as [| [x [y |]] r IH]; intros prev; simpl;
    [reflexivity | |]; rewrite IH; reflexivity.
Qed.

Lemma loc_missing (l : NSeries) (t : Timestamp) :
  ~ In t (map fst l) -> loc l t = Raise KeyError.
Proof.
  intros H. unfold loc.
  destruct (find (fun p => fst p =? t) l) as [[u v] |] eqn:E; [| reflexivity].
  apply find_some in E. destruct E as [Hin E]. apply Z.eqb_eq in E.
  simpl in E. subst. exfalso. apply H.
  change t with (fst (t, v)). apply in_map. exact Hin.
Qed.

Lemma loc_found (f : Timestamp -> option Q) (l : list Timestamp) (rest : NSeries)
    (t : Timestamp) :
  In t l -> loc (map (fun g => (g, f g)) l ++ rest) t = Ok (f t).
Proof.
  unfold loc. induction l as [| g l IH]; simpl; intros H; [contradiction |].
  destruct (g =? t) eqn:E.
  - apply Z.eqb_eq in E. subst. reflexivity.
  - destruct H as [-> | H]; [rewrite Z.eqb_refl in E; discriminate |].
    apply IH. exact H.
Qed.

Lemma next_valid_gap (l : list Timestamp) (x1 : Timestamp) (y1 : Q) (rest : NSeries) :
  next_valid (map (fun g => (g, None)) l ++ (x1, Some y1) :: rest) = Some (x1, y1).
Proof. induction l as [| g l IH]; simpl; [reflexivity | exact IH]. Qed.

(** A run of NaN between two valid points is filled by the line through
    them. *)
Lemma interpolate_from_gap (x0 x1 : Timestamp) (y0 y1 : Q) (l : list Timestamp)
    (rest : NSeries) :
  interpolate_from (Some (x0, y0))
      (map (fun g => (g, None)) l ++ (x1, Some y1) :: rest) =
  map (fun g => (g, Some (lerp x0 y0 x1 y1 g))) l
    ++ (x1, Some y1) :: interpolate_from (Some (x1, y1)) rest.
Proof.
  induction l as [| g l IH]; simpl; [reflexivity |].
  rewrite next_valid_gap, IH. reflexivity.
Qed.

(** The line through two points stays between their values. *)
Lemma lerp_between (x0 x1 x : Timestamp) (y0 y1 : Q) :
  x0 < x < x1 ->
  (Qmin y0 y1 <= lerp x0 y0 x1 y1 x /\ lerp x0 y0 x1 y1 x <= Qmax y0 y1)%Q.
Proof.
  intros Hx. unfold lerp.
  set (f := (x - x0) # Z.to_pos (x1 - x0)).
  assert (Hf0 : (0 <= f)%Q).
  { unfold f, Qle. simpl. lia. }
  assert (Hf1 : (f <= 1)%Q).
  { unfold f, Qle. simpl. rewrite Z2Pos.id by lia. lia. }
  destruct (Qlt_le_dec y1 y0) as [Hy | Hy].
  - rewrite (Q.min_r y0 y1), (Q.max_l y0 y1) by (apply Qlt_le_weak; exact Hy).
    split; nra.
  - rewrite (Q.min_l y0 y1), (Q.max_r y0 y1) by exact Hy.
    split; nra.
Qed.

(** The upsampled two-point neighbourhood. *)
Lemma resample_pair (t1 t2 : Timestamp) (v1 v2 : Q) :
  t1 < t2 ->
  resample_1d [(t1, v1); (t2, v2)] =
    Ok (map (fun g => (g, lookup [(t1, v1); (t2, v2)] g)) (day_range t1 t2)).
Proof.
  intros H. unfold resample_1d. simpl.
  assert (E : (t1 =? t2) = false) by (apply Z.eqb_neq; lia).
  rewrite E. simpl.
  rewrite Z.min_r, Z.max_l by lia. reflexivity.
Qed.

End GridFacts.
(** ** Claims on [interpolate_one] *)

Module InterpolateClaims.
Import SortFacts InterpolateFacts GridFacts.

Lemma loc_skip (u t : Timestamp) (v : option Q) (l : NSeries) :
  u <> t -> loc ((u, v) :: l) t = loc l t.
Proof.
  intros H. unfold loc. simpl.
  assert (E : (u =? t) = false) by (apply Z.eqb_neq; exact H).
  rewrite E. reflexivity.
Qed.

Lemma lookup_pair_gap (t1 t2 g : Timestamp) (v1 v2 : Q) :
  t1 < g < t2 -> lookup [(t1, v1); (t2, v2)] g = None.
Proof.
  intros H. unfold lookup. simpl.
  assert (E1 : (t1 =? g) = false) by (apply Z.eqb_neq; lia).
  assert (E2 : (t2 =? g) = false) by (apply Z.eqb_neq; lia).
  rewrite E1, E2. reflexivity.
Qed.

(** A timestamp that is not a midnight is not a label of the daily grid. *)
Lemma off_midnight_off_grid (a b target : Timestamp) :
  target mod DAY <> 0 -> ~ In target (day_range a b).
Proof. intros H Hin. apply H. eapply day_range_midnight. exact Hin. Qed.

(** C2. When the target is a label of the series, [interpolate_one]
    returns what the series stores at that label, by direct lookup and
    without interpolating: the result is [ts[target]]; when the labels of
    the series are distinct this is exactly the value stored at the
    target. *)
Theorem interpolate_one_exact (ts : Series) (target : Timestamp) :
  In target (index ts) ->
  interpolate_one ts target = getitem ts target /\
  (forall v, NoDup (index ts) -> In (target, v) ts ->
             interpolate_one ts target = Ok (Scalar (Some v))).
Proof.
  intros Hin.
  assert (E : interpolate_one ts target = getitem ts target).
  { unfold interpolate_one.
    rewrite (proj2 (contains_In (index ts) target) Hin). reflexivity. }
  split; [exact E |].
  intros v Hnd Hv. rewrite E. unfold getitem.
  rewrite (filter_label_unique ts target v Hnd Hv). reflexivity.
Qed.

Lemma interpolate_one_exact_witness :
  interpolate_one [(2 * DAY, 10%Q); (0, 0%Q); (5 * DAY, 4%Q)] (5 * DAY)
  = Ok (Scalar (Some 4%Q)).
Proof.
  apply (proj2 (interpolate_one_exact
                  [(2 * DAY, 10%Q); (0, 0%Q); (5 * DAY, 4%Q)] (5 * DAY)
                  ltac:(vm_compute; tauto))).
  - repeat constructor; vm_compute; intuition discriminate.
  - vm_compute. tauto.
Defined.

(** C9. For a target strictly between two consecutive rows of the sorted
    series (hence not a label of the series) that is not a label of the
    daily grid of these two rows, the final lookup [.loc[target]] raises
    [KeyError]; in particular for every such target that is not a
    midnight. *)
Theorem interpolate_one_off_grid (ts pre post : Series)
    (t1 t2 target : Timestamp) (v1 v2 : Q) :
  sort_index ts = pre ++ (t1, v1) :: (t2, v2) :: post ->
  t1 < target < t2 ->
  ~ In target (day_range t1 t2) ->
  interpolate_one ts target = Raise KeyError.
Proof.
  intros Hs Ht Hgrid.
  rewrite (interpolate_one_between ts pre post t1 t2 target v1 v2 Hs Ht).
  rewrite resample_pair by lia. cbn [bind].
  rewrite loc_missing; [reflexivity |].
  unfold interpolate_time. rewrite interpolate_from_labels, map_map. simpl.
  rewrite map_id. exact Hgrid.
Qed.

Lemma interpolate_one_off_grid_witness :
  interpolate_one [(2 * DAY, 10%Q); (0, 0%Q); (5 * DAY, 4%Q)] (3 * DAY + 3600)
  = Raise KeyError.
Proof.
  apply (interpolate_one_off_grid
           [(2 * DAY, 10%Q); (0, 0%Q); (5 * DAY, 4%Q)]
           [(0, 0%Q)] [] (2 * DAY) (5 * DAY) (3 * DAY + 3600) 10%Q 4%Q).
  - reflexivity.
  - vm_compute. split; reflexivity.
  - apply off_midnight_off_grid. vm_compute. discriminate.
Defined.

(** C1. The code departs from the claim, and from its own comment at line
    41 (insert an empty value at the target time): line 42 puts only the
    daily midnights into the two-row neighbourhood, never the target, so
    between the rows at day 0 and day 2 the target one nanosecond after
    the midnight of day 1 gets no value: the lookup raises [KeyError],
    where the claim has a value between 0 and 10. *)
Lemma interpolate_one_bound_counterexample :
  let ts := [(0, 0%Q); (2 * DAY, 10%Q)] in
  let target := DAY + 1 in
  sort_index ts = [(0, 0%Q); (2 * DAY, 10%Q)] /\
  0 < target < 2 * DAY /\
  interpolate_one ts target = Raise KeyError /\
  ~ (exists v, interpolate_one ts target = Ok (Scalar (Some v)) /\
               (Qmin 0 10 <= v /\ v <= Qmax 0 10)%Q).
Proof.
  cbv zeta. repeat split; try reflexivity.
  intros (v & E & _). vm_compute in E. discriminate.
Qed.

(** The two rows matter as well. A first row off midnight is not a label
    of the grid, so nothing precedes the target on the grid and the result
    is NaN; with only the second row off midnight the first value is
    carried forward instead of the value of the line. *)
Example interpolate_one_first_row_off_midnight :
  interpolate_one [(3600, 0%Q); (2 * DAY, 10%Q)] DAY = Ok (Scalar None).
Proof. reflexivity. Qed.

Example interpolate_one_second_row_off_midnight :
  interpolate_one [(0, 0%Q); (2 * DAY + 3600, 10%Q)] DAY = Ok (Scalar (Some 0%Q)) /\
  ~ (lerp 0 0 (2 * DAY + 3600) 10 DAY == 0)%Q.
Proof. split; [reflexivity | vm_compute; discriminate]. Qed.

(** The case the daily grid serves: when the two consecutive rows and the
    target all lie at midnight, the target is one of the inserted labels;
    [interpolate_one] returns the value of the line through the two rows
    at the target, and this value lies between the two row values, bounds
    included. *)
Theorem interpolate_one_between_midnights (ts pre post : Series)
    (t1 t2 target : Timestamp) (v1 v2 : Q) :
  sort_index ts = pre ++ (t1, v1) :: (t2, v2) :: post ->
  t1 < target < t2 ->
  t1 mod DAY = 0 -> t2 mod DAY = 0 -> target mod DAY = 0 ->
  interpolate_one ts target = Ok (Scalar (Some (lerp t1 v1 t2 v2 target))) /\
  (Qmin v1 v2 <= lerp t1 v1 t2 v2 target /\
   lerp t1 v1 t2 v2 target <= Qmax v1 v2)%Q.
Proof.
  intros Hs Ht H1 H2 Hm.
  split; [| apply lerp_between; exact Ht].
  rewrite (interpolate_one_between ts pre post t1 t2 target v1 v2 Hs Ht).
  rewrite resample_pair by lia. cbn [bind].
  destruct (day_range_split t1 t2 H1 H2 ltac:(lia)) as (mids & -> & Hmids).
  rewrite map_cons, map_app.
  rewrite (map_ext_in _ (fun g => (g, @None Q)) mids).
  2:{ intros g Hg. apply Hmids in Hg. rewrite lookup_pair_gap by tauto. reflexivity. }
  assert (L1 : lookup [(t1, v1); (t2, v2)] t1 = Some v1).
  { unfold lookup. simpl. rewrite Z.eqb_refl. reflexivity. }
  assert (L2 : lookup [(t1, v1); (t2, v2)] t2 = Some v2).
  { unfold lookup. simpl.
    assert (E : (t1 =? t2) = false) by (apply Z.eqb_neq; lia).
    rewrite E, Z.eqb_refl. reflexivity. }
  cbn [map]. rewrite L1, L2.
  unfold interpolate_time. cbn [interpolate_from].
  rewrite interpolate_from_gap.
  rewrite loc_skip by lia.
  rewrite (loc_found (fun g => Some (lerp t1 v1 t2 v2 g))).
  - reflexivity.
  - apply Hmids. tauto.
Qed.

Lemma interpolate_one_between_midnights_witness :
  interpolate_one [(2 * DAY, 10%Q); (0, 0%Q); (5 * DAY, 4%Q)] (3 * DAY)
  = Ok (Scalar (Some (lerp (2 * DAY) 10 (5 * DAY) 4 (3 * DAY)))) /\
  (Qmin 10 4 <= lerp (2 * DAY) 10 (5 * DAY) 4 (3 * DAY) /\
   lerp (2 * DAY) 10 (5 * DAY) 4 (3 * DAY) <= Qmax 10 4)%Q.
Proof.
  apply (interpolate_one_between_midnights
           [(2 * DAY, 10%Q); (0, 0%Q); (5 * DAY, 4%Q)]
           [(0, 0%Q)] [] (2 * DAY) (5 * DAY) (3 * DAY) 10%Q 4%Q).
  - reflexivity.
  - vm_compute. split; reflexivity.
  - reflexivity.
  - reflexivity.
  - reflexivity.
Defined.

End InterpolateClaims.
(** ** [savefig] *)

Module SavefigClaims.








End SavefigClaims.

(** ** [add_lines] *)

Module AddLinesClaims.

Lemma drawn_drawn (w : World) (l l' : list artist) :
  drawn (drawn w l) l' = drawn w (l ++ l').
Proof. unfold drawn. simpl. rewrite app_assoc. reflexivity. Qed.

Lemma drawn_nil (w : World) : drawn w [] = w.
Proof. unfold drawn. rewrite app_nil_r. destruct w; reflexivity. Qed.

(** One turn of the loop: the label is placed according to its position. *)
Lemma add_lines_from_step (sample : Series) (alternate : bool) (i : nat)
    (date : Timestamp) (text : string) (rest : Lines) (y : item) (w : World) :
  interpolate_one sample date = Ok y ->
  add_lines_from sample alternate i ((date, text) :: rest) w =
  add_lines_from sample alternate (S i) rest
    (drawn w [Annotation text (date, y) (fst (placement i alternate))
                (snd (placement i alternate))]).
Proof.
  intros H. cbn [add_lines_from].
  destruct (placement i alternate) as [xy align].
  unfold bindM, lift. rewrite H. reflexivity.
Qed.

(** C3, as stated, fails: of three entries, the second at a date for which
    [interpolate_one] raises [KeyError] (just past the midnight of day 1,
    between the rows of the sample), only the first is drawn; the error leaves the
    loop and the third entry is never reached. *)
Lemma add_lines_three_entries_counterexample :
  let sample := [(0, 0%Q); (4 * DAY, 8%Q)] in
  let w := mkWorld [] [] [] [] [] in
  add_lines [] sample
    (Some [(0, "first"%string); (DAY + 3600, "second"%string);
           (4 * DAY, "third"%string)])
    true w =
    (drawn w [Annotation "first" (0, Scalar (Some 0%Q)) (-64, 100) "right"],
     Raise KeyError).
Proof. reflexivity. Qed.

(** C3, amended. Three entries whose dates can be interpolated are drawn in order;
    with [alternate=True] the first and third get the offset (-64, 100)
    with right alignment and the second the offset (64, -80) with left
    alignment; with [alternate=False] all three get the offset (-64, 100)
    with right alignment. *)
Theorem add_lines_three_entries (config_dates : Lines) (sample : Series)
    (d1 d2 d3 : Timestamp) (s1 s2 s3 : string) (y1 y2 y3 : item) (w : World) :
  interpolate_one sample d1 = Ok y1 ->
  interpolate_one sample d2 = Ok y2 ->
  interpolate_one sample d3 = Ok y3 ->
  add_lines config_dates sample (Some [(d1, s1); (d2, s2); (d3, s3)]) true w =
    (drawn w [Annotation s1 (d1, y1) (-64, 100) "right";
              Annotation s2 (d2, y2) (64, -80) "left";
              Annotation s3 (d3, y3) (-64, 100) "right"], Ok tt) /\
  add_lines config_dates sample (Some [(d1, s1); (d2, s2); (d3, s3)]) false w =
    (drawn w [Annotation s1 (d1, y1) (-64, 100) "right";
              Annotation s2 (d2, y2) (-64, 100) "right";
              Annotation s3 (d3, y3) (-64, 100) "right"], Ok tt).
Proof.
  intros H1 H2 H3. unfold add_lines. split.
  - rewrite (add_lines_from_step _ _ _ _ _ _ _ _ H1).
    rewrite (add_lines_from_step _ _ _ _ _ _ _ _ H2).
    rewrite (add_lines_from_step _ _ _ _ _ _ _ _ H3).
    rewrite !drawn_drawn. reflexivity.
  - rewrite (add_lines_from_step _ _ _ _ _ _ _ _ H1).
    rewrite (add_lines_from_step _ _ _ _ _ _ _ _ H2).
    rewrite (add_lines_from_step _ _ _ _ _ _ _ _ H3).
    rewrite !drawn_drawn. reflexivity.
Qed.

Lemma add_lines_three_entries_witness :
  let sample := [(0, 0%Q); (4 * DAY, 8%Q)] in
  let w := mkWorld [] [] [] [] [] in
  add_lines [] sample
    (Some [(0, "first"%string); (2 * DAY, "second"%string); (4 * DAY, "third"%string)])
    true w =
    (drawn w [Annotation "first" (0, Scalar (Some 0%Q)) (-64, 100) "right";
              Annotation "second"
                (2 * DAY, Scalar (Some (lerp 0 0 (4 * DAY) 8 (2 * DAY))))
                (64, -80) "left";
              Annotation "third" (4 * DAY, Scalar (Some 8%Q)) (-64, 100) "right"],
     Ok tt).
Proof.
  intros sample w.
  apply (proj1 (add_lines_three_entries [] sample 0 (2 * DAY) (4 * DAY)
                  "first" "second" "third"
                  (Scalar (Some 0%Q))
                  (Scalar (Some (lerp 0 0 (4 * DAY) 8 (2 * DAY))))
                  (Scalar (Some 8%Q)) w
                  ltac:(reflexivity) ltac:(reflexivity) ltac:(reflexivity))).
Defined.

End AddLinesClaims.
(** ** [plot_events]: filtering, and what is returned *)

Module PlotEventsFacts.

Lemma boolean_index_map (f : Row -> bool) (df : DataFrame) :
  boolean_index df (map f df) = filter f df.
Proof.
  induction df as [| r df IH]; simpl; [reflexivity |].
  rewrite IH. reflexivity.
Qed.

Lemma and_series_map (f g : Row -> bool) (df : DataFrame) :
  and_series (map f df) (map g df) = map (fun r => f r && g r) df.
Proof.
  induction df as [| r df IH]; simpl; [reflexivity |].
  rewrite IH. reflexivity.
Qed.

Lemma isin_map (col : Row -> string) (values : list string) (df : DataFrame) :
  isin (map col df) values = map (fun r => existsb (String.eqb (col r)) values) df.
Proof. unfold isin. rewrite map_map. reflexivity. Qed.

Lemma filter_all (df : DataFrame) : filter (fun _ => true) df = df.
Proof.
  induction df as [| r df IH]; simpl; [reflexivity |].
  rewrite IH. reflexivity.
Qed.

Lemma filter_twice (f g : Row -> bool) (df : DataFrame) :
  filter g (filter f df) = filter (fun r => f r && g r) df.
Proof.
  induction df as [| r df IH]; simpl; [reflexivity |].
  destruct (f r); simpl; [destruct (g r) |]; rewrite IH; reflexivity.
Qed.

(** The table that is grouped holds exactly the rows that pass every
    given filter. *)
Lemma filtered_selected (df : DataFrame) (events org : option names)
    (since : option Timestamp) (year : option Z) :
  filtered df events org since year = filter (selected events org since year) df.
Proof.
  unfold filtered, build_mask, selected.
  rewrite !isin_map.
  destruct (given_names events), (given_names org), since as [s |],
    year as [y |]; try destruct (y =? 0);
    cbn [and_mask]; rewrite ?and_series_map, ?boolean_index_map;
    try (symmetry; apply filter_all);
    apply filter_ext; intros r; cbn [andb];
    rewrite ?andb_true_r; reflexivity.
Qed.

Lemma deref_alloc (w : World) (df : DataFrame) :
  deref (snd (alloc w df)) (fst (alloc w df)) = df.
Proof.
  unfold deref, alloc. simpl.
  rewrite app_nth2, Nat.sub_diag by lia. reflexivity.
Qed.

(** What [plot_events] returns is the aggregate of the filtered table. *)
Lemma plot_events_returns (df : ref) (events org : option names)
    (since : option Timestamp) (year : option Z) (n : Z) (freq : Freq)
    (groupby : option string) (column : string) (metric : Metric)
    (timeseries : bool) (smooth : option Z) (plot_args : kwargs) (w : World) :
  snd (plot_events df events org since year n freq groupby column metric
         timeseries smooth plot_args w) =
  aggregate_events (filtered (deref w df) events org since year) n freq groupby
    column metric timeseries smooth.
Proof.
  unfold plot_events, filtered.
  destruct (build_mask (deref w df) events org since year) as [m |].
  - pose proof (deref_alloc w (boolean_index (deref w df) m)) as E.
    destruct (alloc w (boolean_index (deref w df) m)) as [df' w'].
    simpl in E. rewrite E. unfold bindM, lift.
    destruct (aggregate_events _ _ _ _ _ _ _ _); [| reflexivity].
    destruct timeseries; reflexivity.
  - unfold bindM, lift.
    destruct (aggregate_events _ _ _ _ _ _ _ _); [| reflexivity].
    destruct timeseries; reflexivity.
Qed.

(** The tables alive after [plot_events]: those alive before, followed by
    the filtered table when a filter is given. *)
Lemma plot_events_heap (df : ref) (events org : option names)
    (since : option Timestamp) (year : option Z) (n : Z) (freq : Freq)
    (groupby : option string) (column : string) (metric : Metric)
    (timeseries : bool) (smooth : option Z) (plot_args : kwargs) (w : World) :
  heap (fst (plot_events df events org since year n freq groupby column metric
               timeseries smooth plot_args w)) =
  heap w ++ match build_mask (deref w df) events org since year with
            | Some m => [boolean_index (deref w df) m]
            | None => []
            end.
Proof.
  unfold plot_events.
  destruct (build_mask (deref w df) events org since year) as [m |].
  - unfold alloc, bindM, lift.
    destruct (aggregate_events _ _ _ _ _ _ _ _); [| reflexivity].
    destruct timeseries; reflexivity.
  - rewrite app_nil_r. unfold bindM, lift.
    destruct (aggregate_events _ _ _ _ _ _ _ _); [| reflexivity].
    destruct timeseries; reflexivity.
Qed.

Lemma build_mask_none (df : DataFrame) (events org : option names) (year : option Z) :
  given_names events = false -> given_names org = false ->
  year = None \/ year = Some 0 ->
  build_mask df events org None year = None.
Proof.
  intros He Ho Hy. unfold build_mask. rewrite He, Ho.
  destruct Hy as [-> | ->]; reflexivity.
Qed.

End PlotEventsFacts.

Module PlotEventsClaims.
Import PlotEventsFacts.

(** C10. Without a time series and with a [groupby] that is [None] or
    empty, [plot_events] raises [NameError] (the unbound local [grouped]),
    whatever the table and the other arguments. *)
Theorem plot_events_unbound_grouped (df : ref) (events org : option names)
    (since : option Timestamp) (year : option Z) (n : Z) (freq : Freq)
    (groupby : option string) (column : string) (metric : Metric)
    (smooth : option Z) (plot_args : kwargs) (w : World) :
  given_name groupby = false ->
  snd (plot_events df events org since year n freq groupby column metric
         false smooth plot_args w) = Raise NameError.
Proof.
  intros H. rewrite plot_events_returns.
  unfold aggregate_events. cbn [given_grouper]. rewrite H. reflexivity.
Qed.

Lemma plot_events_unbound_grouped_witness :
  snd (plot_events 0%nat None None None None 5 FreqM None "actor_id" count
         false None []
         (mkWorld [[mkRow "PushEvent" "jupyter" 0 1 "notebook"]] [] [] [] []))
  = Raise NameError.
Proof.
  apply plot_events_unbound_grouped. reflexivity.
Defined.

(** C8. [plot_events] changes none of the tables that are alive when it
    is called, the caller's table included: the filtered rows go into a new
    table. When no filter is given, no table is made and the aggregate is
    computed from the caller's table itself. *)
Theorem plot_events_keeps_input (df : ref) (events org : option names)
    (since : option Timestamp) (year : option Z) (n : Z) (freq : Freq)
    (groupby : option string) (column : string) (metric : Metric)
    (timeseries : bool) (smooth : option Z) (plot_args : kwargs) (w : World) :
  let run := plot_events df events org since year n freq groupby column metric
               timeseries smooth plot_args w in
  (forall r, (r < length (heap w))%nat -> deref (fst run) r = deref w r) /\
  (exists made, heap (fst run) = heap w ++ made) /\
  (given_names events = false -> given_names org = false -> since = None ->
   year = None \/ year = Some 0 ->
   heap (fst run) = heap w /\
   snd run = aggregate_events (deref w df) n freq groupby column metric
               timeseries smooth).
Proof.
  intros run. unfold run. split; [| split].
  - intros r Hr. unfold deref. rewrite plot_events_heap.
    apply app_nth1. exact Hr.
  - eexists. apply plot_events_heap.
  - intros He Ho Hs Hy. subst since.
    rewrite plot_events_heap, plot_events_returns. unfold filtered.
    rewrite (build_mask_none _ _ _ _ He Ho Hy), app_nil_r.
    split; reflexivity.
Qed.

Lemma plot_events_keeps_input_witness :
  let w := mkWorld [[mkRow "PushEvent" "jupyter" 0 1 "notebook";
                     mkRow "ForkEvent" "jupyter" DAY 2 "notebook"]] [] [] [] [] in
  let run := plot_events 0%nat None None None None 5 FreqM (Some "repo_name"%string)
               "actor_id" count false None [] w in
  heap (fst run) = heap w /\
  snd run = aggregate_events (deref w 0%nat) 5 FreqM (Some "repo_name"%string)
              "actor_id" count false None.
Proof.
  intros w run.
  apply (proj2 (proj2 (plot_events_keeps_input 0%nat None None None None 5 FreqM
                         (Some "repo_name"%string) "actor_id" count false None [] w)));
    try reflexivity.
  left. reflexivity.
Defined.

(** C4. The filters are conjunctive and each is optional: the table that
    is grouped holds exactly the rows of the caller's table that pass
    every given filter, so what is returned is the aggregate of these rows;
    the rows kept by an event filter together with an organisation filter
    are the rows kept by the one among the rows kept by the other; a filter
    that is not given keeps every row. *)
Theorem plot_events_filters_conjunctive (df : ref) (events org : option names)
    (since : option Timestamp) (year : option Z) (n : Z) (freq : Freq)
    (groupby : option string) (column : string) (metric : Metric)
    (timeseries : bool) (smooth : option Z) (plot_args : kwargs) (w : World) :
  snd (plot_events df events org since year n freq groupby column metric
         timeseries smooth plot_args w) =
    aggregate_events (filter (selected events org since year) (deref w df))
      n freq groupby column metric timeseries smooth /\
  filtered (deref w df) events org None None =
    filter (selected None org None None)
      (filter (selected events None None None) (deref w df)) /\
  (forall r, selected events org None None r =
             selected events None None None r && selected None org None None r) /\
  (forall r, selected None None None None r = true) /\
  filtered [mkRow "X" "Y" 0 1 "a"; mkRow "X" "Z" 0 2 "a"; mkRow "W" "Y" 0 3 "a"]
    (Some (Many ["X"%string])) (Some (Many ["Y"%string])) None None =
    [mkRow "X" "Y" 0 1 "a"].
Proof.
  split; [| split; [| split; [| split]]].
  - rewrite plot_events_returns, filtered_selected. reflexivity.
  - rewrite filtered_selected, filter_twice.
    apply filter_ext. intros r. unfold selected. cbn [given_names andb].
    rewrite !andb_true_r. reflexivity.
  - intros r. unfold selected. cbn [given_names andb].
    rewrite !andb_true_r. reflexivity.
  - intros r. reflexivity.
  - reflexivity.
Qed.

End PlotEventsClaims.
(** ** Ranking: [nlargest] *)

Module RankFacts.

Section Ranking.
Context {A : Type}.
Implicit Types (e : A * Q) (l : list (A * Q)).

Lemma insert_desc_perm e l : Permutation (insert_desc e l) (e :: l).
Proof.
  induction l as [| f r IH]; simpl.
  - apply Permutation_refl.
  - destruct (Qle_bool (snd f) (snd e)).
    + apply Permutation_refl.
    + eapply perm_trans; [apply perm_skip, IH | apply perm_swap].
Qed.

Lemma sort_desc_perm l : Permutation (sort_desc l) l.
Proof.
  induction l as [| e r IH]; simpl.
  - constructor.
  - eapply perm_trans; [apply insert_desc_perm | apply perm_skip, IH].
Qed.

Lemma insert_desc_sorted e l :
  StronglySorted by_value_desc l -> StronglySorted by_value_desc (insert_desc e l).
Proof.
  induction 1 as [| f r Hr IH Hf]; simpl.
  - repeat constructor.
  - destruct (Qle_bool (snd f) (snd e)) eqn:E.
    + apply Qle_bool_iff in E. constructor.
      * constructor; assumption.
      * constructor; [exact E |].
        eapply Forall_impl; [| exact Hf].
        unfold by_value_desc. intros x Hx. eapply Qle_trans; eassumption.
    + constructor; [exact IH |].
      eapply Permutation_Forall.
      * apply Permutation_sym, insert_desc_perm.
      * constructor; [| exact Hf].
        unfold by_value_desc. apply Qlt_le_weak, Qnot_le_lt.
        intros H. apply Qle_bool_iff in H. congruence.
Qed.

Lemma sort_desc_sorted l : StronglySorted by_value_desc (sort_desc l).
Proof.
  induction l as [| e r IH]; simpl.
  - constructor.
  - apply insert_desc_sorted, IH.
Qed.

(** A prefix of a sorted list is sorted and dominates the rest. *)
Lemma sorted_prefix (l1 l2 : list (A * Q)) :
  StronglySorted by_value_desc (l1 ++ l2) ->
  StronglySorted by_value_desc l1 /\
  (forall a b, In a l1 -> In b l2 -> by_value_desc a b).
Proof.
  induction l1 as [| x l1 IH]; simpl; intros H.
  - split; [constructor | intros a b []].
  - inversion H as [| ? ? Hs Hx]; subst.
    destruct (IH Hs) as [Hs1 Hdom].
    rewrite Forall_app in Hx. destruct Hx as [Hx1 Hx2].
    split; [constructor; assumption |].
    intros a b [<- | Ha] Hb.
    + rewrite Forall_forall in Hx2. apply Hx2. exact Hb.
    + apply Hdom; assumption.
Qed.

(** [top n s]: the [n] largest values of [s], largest first. *)
Lemma top_ranked (n : Z) (s : list (A * option Q)) :
  exists rest,
    Permutation (top n s ++ rest) (dropna s) /\
    StronglySorted by_value_desc (top n s) /\
    length (top n s) = Nat.min (Z.to_nat n) (length (dropna s)) /\
    (forall a b, In a (top n s) -> In b rest -> (snd b <= snd a)%Q).
Proof.
  exists (skipn (Z.to_nat n) (sort_desc (dropna s))). unfold top.
  pose proof (sort_desc_sorted (dropna s)) as Hs.
  rewrite <- (firstn_skipn (Z.to_nat n) (sort_desc (dropna s))) in Hs.
  destruct (sorted_prefix _ _ Hs) as [Hs1 Hdom].
  repeat split.
  - rewrite firstn_skipn. apply sort_desc_perm.
  - exact Hs1.
  - rewrite length_firstn. f_equal.
    apply Permutation_length, sort_desc_perm.
  - exact Hdom.
Qed.

End Ranking.

End RankFacts.

Module TopNClaims.
Import PlotEventsFacts RankFacts.

(** C5. Without a time series, and grouped by a column, [plot_events]
    returns the [n] groups with the largest aggregate values, largest
    first: what is returned, followed by the groups left out, is a
    rearrangement of the aggregated groups, it is in descending order of
    value, it has [n] entries (all of them if there are fewer), and no
    group left out has a larger value than a group returned. With [n = 2]
    and the counts A:10, B:7, C:9, D:1 the result is A:10 then C:9. *)
Theorem plot_events_top_n :
  (forall (df : ref) (events org : option names) (since : option Timestamp)
          (year : option Z) (n : Z) (freq : Freq) (g column : string)
          (metric : Metric) (smooth : option Z) (plot_args : kwargs) (w : World)
          (key col : Row -> value),
      g <> EmptyString ->
      column_of g = Some key ->
      column_of column = Some col ->
      exists ranked rest,
        snd (plot_events df events org since year n freq (Some g) column metric
               false smooth plot_args w) = Ok (GroupSeries (with_values ranked)) /\
        Permutation (ranked ++ rest)
          (dropna (group_values
                     (filter (selected events org since year) (deref w df))
                     key col metric)) /\
        StronglySorted by_value_desc ranked /\
        length ranked = Nat.min (Z.to_nat n) (length (ranked ++ rest)) /\
        (forall a b, In a ranked -> In b rest -> (snd b <= snd a)%Q)) /\
  snd (plot_events 0%nat None None None None 2 FreqM (Some "repo_name"%string)
         "actor_id" count false None []
         (mkWorld [repeat (mkRow "PushEvent" "jupyter" 0 1 "A") 10
                   ++ repeat (mkRow "PushEvent" "jupyter" 0 2 "B") 7
                   ++ repeat (mkRow "PushEvent" "jupyter" 0 3 "C") 9
                   ++ repeat (mkRow "PushEvent" "jupyter" 0 4 "D") 1]
            [] [] [] []))
  = Ok (GroupSeries [(VStr "A", Some 10%Q); (VStr "C", Some 9%Q)]).
Proof.
  split; [| vm_compute; reflexivity].
  intros df events org since year n freq g column metric smooth plot_args w
    key col Hg Hkey Hcol.
  set (s := group_values (filter (selected events org since year) (deref w df))
              key col metric).
  destruct (top_ranked n s) as (rest & Hperm & Hsorted & Hlen & Hdom).
  exists (top n s), rest.
  split; [| split; [| split; [| split]]]; try assumption.
  - rewrite plot_events_returns, filtered_selected.
    unfold aggregate_events. cbn [given_grouper given_name].
    apply String.eqb_neq in Hg. rewrite Hg. cbn [negb].
    unfold groupby_frame, select_column. rewrite Hkey, Hcol. reflexivity.
  - rewrite Hlen. f_equal. symmetry. apply Permutation_length. exact Hperm.
Qed.

Lemma plot_events_top_n_witness :
  exists ranked rest,
    snd (plot_events 0%nat None (Some (One "jupyter")) None None 1 FreqM
           (Some "repo_name"%string) "actor_id" nunique false None []
           (mkWorld [[mkRow "PushEvent" "jupyter" 0 1 "notebook";
                      mkRow "PushEvent" "ipython" 0 1 "ipython";
                      mkRow "ForkEvent" "jupyter" DAY 2 "notebook";
                      mkRow "ForkEvent" "jupyter" DAY 2 "lab"]] [] [] [] []))
      = Ok (GroupSeries (with_values ranked)) /\
    Permutation (ranked ++ rest)
      (dropna (group_values
                 (filter (selected None (Some (One "jupyter")) None None)
                    [mkRow "PushEvent" "jupyter" 0 1 "notebook";
                     mkRow "PushEvent" "ipython" 0 1 "ipython";
                     mkRow "ForkEvent" "jupyter" DAY 2 "notebook";
                     mkRow "ForkEvent" "jupyter" DAY 2 "lab"])
                 (fun r => VStr (repo_name r)) (fun r => VInt (actor_id r))
                 nunique)) /\
    StronglySorted by_value_desc ranked /\
    length ranked = Nat.min (Z.to_nat 1) (length (ranked ++ rest)) /\
    (forall a b, In a ranked -> In b rest -> (snd b <= snd a)%Q).
Proof.
  apply (proj1 plot_events_top_n 0%nat None (Some (One "jupyter")) None None 1
           FreqM "repo_name"%string "actor_id"%string nunique None []
           (mkWorld [[mkRow "PushEvent" "jupyter" 0 1 "notebook";
                      mkRow "PushEvent" "ipython" 0 1 "ipython";
                      mkRow "ForkEvent" "jupyter" DAY 2 "notebook";
                      mkRow "ForkEvent" "jupyter" DAY 2 "lab"]] [] [] [] [])
           (fun r => VStr (repo_name r)) (fun r => VInt (actor_id r))).
  - discriminate.
  - reflexivity.
  - reflexivity.
Defined.

End TopNClaims.
(** ** Smoothing: [rolling(k).mean()] *)

Module RollingFacts.

Lemma window_sum_snoc (xs : list (option Q)) (len a : nat) :
  (window_sum xs a (S len) ==
   window_sum xs a len
   + match nth (a + len) xs None with Some v => v | None => 0 end)%Q.
Proof.
  revert a. induction len as [| len IH]; intros a.
  - simpl. rewrite Nat.add_0_r. lra.
  - change (window_sum xs a (S (S len)))
      with (match nth a xs None with Some v => v | None => 0 end
            + window_sum xs (S a) (S len))%Q.
    rewrite (IH (S a)).
    change (window_sum xs a (S len))
      with (match nth a xs None with Some v => v | None => 0 end
            + window_sum xs (S a) len)%Q.
    replace (S a + len)%nat with (a + S len)%nat by lia. lra.
Qed.

Lemma window_obs_snoc (xs : list (option Q)) (len a : nat) :
  window_obs xs a (S len) =
  (window_obs xs a len
   + match nth (a + len) xs None with Some _ => 1 | None => 0 end)%nat.
Proof.
  revert a. induction len as [| len IH]; intros a.
  - simpl. replace (a + 0)%nat with a by lia. destruct (nth a xs None); lia.
  - change (window_obs xs a (S (S len)))
      with ((match nth a xs None with Some _ => 1 | None => 0 end)
            + window_obs xs (S a) (S len))%nat.
    rewrite (IH (S a)).
    change (window_obs xs a (S len))
      with ((match nth a xs None with Some _ => 1 | None => 0 end)
            + window_obs xs (S a) len)%nat.
    replace (S a + len)%nat with (a + S len)%nat by lia.
    destruct (nth a xs None), (nth (a + S len) xs None); lia.
Qed.

Lemma window_obs_le (xs : list (option Q)) (len a : nat) :
  (window_obs xs a len <= len)%nat.
Proof.
  revert a. induction len as [| len IH]; intros a; simpl; [lia |].
  specialize (IH (S a)). destruct (nth a xs None); lia.
Qed.

Lemma skipn_cons_nth {A : Type} (xs : list A) (i : nat) (x d : A) (r : list A) :
  skipn i xs = x :: r -> nth i xs d = x /\ skipn (S i) xs = r.
Proof.
  revert i. induction xs as [| y xs IH]; intros i H.
  - destruct i; discriminate.
  - destruct i as [| i]; simpl in H.
    + inversion H; subst. split; reflexivity.
    + apply IH in H. exact H.
Qed.

Lemma tracks_step (k : nat) (xs : list (option Q)) (i : nat) (st : Q * nat) :
  (0 < k)%nat -> tracks k xs i st ->
  tracks k xs (S i)
    (add_mean (nth i xs None)
       (if Nat.leb k i then remove_mean (nth (i - k) xs None) st else st)).
Proof.
  intros Hk [Hs Ho]. unfold tracks.
  destruct (Nat.leb k i) eqn:E.
  - apply Nat.leb_le in E.
    replace (Nat.min i k) with k in * by lia.
    replace (Nat.min (S i) k) with k by lia.
    replace (S i - k)%nat with (S (i - k)) by lia.
    destruct k as [| k']; [lia |].
    rewrite window_sum_snoc, window_obs_snoc.
    replace (S (i - S k') + k')%nat with i by lia.
    simpl in Hs, Ho.
    destruct (nth (i - S k') xs None) as [v |], (nth i xs None) as [x |];
      simpl; split; try lra; lia.
  - apply Nat.leb_gt in E.
    replace (Nat.min i k) with i in * by lia.
    replace (Nat.min (S i) k) with (S i) by lia.
    replace (S i - k)%nat with O by lia.
    replace (i - k)%nat with O in * by lia.
    rewrite window_sum_snoc, window_obs_snoc. simpl.
    destruct (nth i xs None) as [x |]; simpl; split; try lra; lia.
Qed.

Lemma calc_mean_trailing (k : nat) (xs : list (option Q)) (i : nat) (st : Q * nat) :
  (0 < k)%nat -> tracks k xs (S i) st ->
  same (calc_mean k st) (trailing_mean k xs i).
Proof.
  intros Hk [Hs Ho]. unfold calc_mean, trailing_mean, window_mean.
  replace (i + 1)%nat with (S i) by lia.
  pose proof (window_obs_le xs (Nat.min (S i) k) (S i - k)) as Hle.
  destruct (Nat.leb k (S i)) eqn:E.
  - apply Nat.leb_le in E.
    replace (Nat.min (S i) k) with k in * by lia.
    rewrite Ho.
    destruct (Nat.eqb (window_obs xs (S i - k) k) k) eqn:Eo.
    + apply Nat.eqb_eq in Eo. rewrite Eo.
      rewrite Nat.leb_refl.
      assert (Ep : Nat.ltb 0 k = true) by (apply Nat.ltb_lt; exact Hk).
      rewrite Ep. simpl. rewrite Hs. reflexivity.
    + apply Nat.eqb_neq in Eo.
      assert (El : Nat.leb k (window_obs xs (S i - k) k) = false)
        by (apply Nat.leb_gt; lia).
      rewrite El. exact I.
  - apply Nat.leb_gt in E.
    replace (Nat.min (S i) k) with (S i) in * by lia.
    assert (El : Nat.leb k (snd st) = false) by (apply Nat.leb_gt; lia).
    rewrite El. exact I.
Qed.

Lemma roll_mean_loop_length (k : nat) (xs rest : list (option Q)) (i : nat)
    (st : Q * nat) :
  length (roll_mean_loop k xs i st rest) = length rest.
Proof.
  revert i st. induction rest as [| x rest IH]; intros i st; simpl;
    [reflexivity | rewrite IH; reflexivity].
Qed.

(** The loop reports the trailing mean at every position it visits. *)
Lemma roll_mean_loop_trailing (k : nat) (xs rest : list (option Q)) :
  (0 < k)%nat ->
  forall (i : nat) (st : Q * nat),
    skipn i xs = rest -> tracks k xs i st ->
    forall j, (j < length rest)%nat ->
      same (nth j (roll_mean_loop k xs i st rest) None) (trailing_mean k xs (i + j)).
Proof.
  intros Hk. induction rest as [| x rest IH]; intros i st Hrest Htr j Hj.
  - simpl in Hj. lia.
  - destruct (skipn_cons_nth xs i x None rest Hrest) as [Hx Hrest'].
    pose proof (tracks_step k xs i st Hk Htr) as Hstep. rewrite Hx in Hstep.
    cbn [roll_mean_loop]. destruct j as [| j].
    + rewrite Nat.add_0_r. cbn [nth].
      apply calc_mean_trailing; assumption.
    + cbn [nth]. replace (i + S j)%nat with (S i + j)%nat by lia.
      apply IH; [exact Hrest' | exact Hstep | simpl in Hj; lia].
Qed.

(** [roll_mean k] is the trailing mean of window [k]. *)
Lemma roll_mean_trailing (k : nat) (xs : list (option Q)) :
  (0 < k)%nat -> trailing k xs (roll_mean k xs).
Proof.
  intros Hk. unfold trailing, roll_mean. split.
  - apply roll_mean_loop_length.
  - intros i Hi.
    apply (roll_mean_loop_trailing k xs xs Hk 0 (0%Q, O)); try assumption.
    + reflexivity.
    + split; reflexivity.
Qed.

Lemma combine_fst {A B : Type} (a : list A) (b : list B) :
  length b = length a -> map fst (combine a b) = a.
Proof.
  revert b. induction a as [| x a IH]; intros [| y b] H; simpl in *;
    try discriminate; [reflexivity |].
  rewrite IH by lia. reflexivity.
Qed.

Lemma combine_snd {A B : Type} (a : list A) (b : list B) :
  length b = length a -> map snd (combine a b) = b.
Proof.
  revert b. induction a as [| x a IH]; intros [| y b] H; simpl in *;
    try discriminate; [reflexivity |].
  rewrite IH by lia. reflexivity.
Qed.

Lemma roll_labelled_trailing {A : Type} (k : nat) (s : list (A * option Q)) :
  (0 < k)%nat ->
  map fst (roll_labelled k s) = map fst s /\
  trailing k (map snd s) (map snd (roll_labelled k s)).
Proof.
  intros Hk. unfold roll_labelled.
  assert (Hl : length (roll_mean k (map snd s)) = length (map fst s)).
  { unfold roll_mean. rewrite roll_mean_loop_length, !length_map. reflexivity. }
  rewrite combine_fst, combine_snd by exact Hl.
  split; [reflexivity | apply roll_mean_trailing; exact Hk].
Qed.

(** [rolling_mean] smooths every shape of data. *)
Lemma rolling_mean_smoothed (k : Z) (d : Data) :
  0 < k -> exists d', rolling_mean k d = Ok d' /\ smoothed (Z.to_nat k) d d'.
Proof.
  intros Hk. unfold rolling_mean.
  assert (E : (k <? 0) = false) by (apply Z.ltb_ge; lia).
  rewrite E. eexists. split; [reflexivity |].
  assert (Hn : (0 < Z.to_nat k)%nat) by lia.
  destruct d as [s | s | s | idx cols]; simpl.
  - apply roll_labelled_trailing; exact Hn.
  - apply roll_labelled_trailing; exact Hn.
  - apply roll_labelled_trailing; exact Hn.
  - split; [reflexivity |]. split.
    + rewrite map_map. reflexivity.
    + induction cols as [| c cols IH]; simpl; constructor; [| exact IH].
      simpl. apply roll_mean_trailing; exact Hn.
Qed.

(** Smoothing is the last step of the time-series branch. *)
Lemma aggregate_events_smooth (df : DataFrame) (n : Z) (freq : Freq)
    (groupby : option string) (column : string) (metric : Metric) (k : Z) :
  k <> 0 ->
  aggregate_events df n freq groupby column metric true (Some k) =
  (d <- aggregate_events df n freq groupby column metric true None ;;
   rolling_mean k d).
Proof.
  intros Hk. unfold aggregate_events.
  assert (E : (k =? 0) = false) by (apply Z.eqb_neq; exact Hk).
  rewrite E. cbn [given_grouper].
  destruct (groupby_frame df (TimeAnd freq groupby)) as [g | e]; [| reflexivity].
  cbn [bind].
  destruct (select_column column) as [col | e]; [| reflexivity].
  cbn [bind].
  destruct (given_name groupby); [| reflexivity].
  destruct (unstack (aggregate g col metric)); reflexivity.
Qed.

End RollingFacts.

Module SmoothClaims.
Import PlotEventsFacts RollingFacts.

(** C6. In time-series mode with [smooth = k], [k] positive: whenever the
    call without smoothing returns the aggregate [d], the call with
    smoothing returns [d] smoothed, that is, with the same labels and, in
    every column, at every position [i], the arithmetic mean of the values
    of [d] at the positions [i - k + 1 .. i] when [i >= k - 1] (NaN when
    one of them is NaN), and NaN when [i < k - 1]. *)
Theorem plot_events_smooth_trailing (df : ref) (events org : option names)
    (since : option Timestamp) (year : option Z) (n : Z) (freq : Freq)
    (groupby : option string) (column : string) (metric : Metric) (k : Z)
    (plot_args : kwargs) (w : World) (d : Data) :
  0 < k ->
  snd (plot_events df events org since year n freq groupby column metric
         true None plot_args w) = Ok d ->
  exists d',
    snd (plot_events df events org since year n freq groupby column metric
           true (Some k) plot_args w) = Ok d' /\
    smoothed (Z.to_nat k) d d'.
Proof.
  intros Hk Hd. rewrite plot_events_returns in *.
  rewrite aggregate_events_smooth by lia. rewrite Hd. cbn [bind].
  apply rolling_mean_smoothed. exact Hk.
Qed.

(** Window 3 on the values 3, 6, 9, 12: NaN, NaN, 6, 9. *)
Example roll_mean_window_3 :
  Forall2 same (roll_mean 3 [Some 3%Q; Some 6%Q; Some 9%Q; Some 12%Q])
    [None; None; Some 6%Q; Some 9%Q].
Proof. repeat constructor. Qed.

(** A NaN in the window makes the mean NaN. *)
Example roll_mean_with_nan :
  Forall2 same (roll_mean 2 [Some 4%Q; None; Some 2%Q; Some 6%Q])
    [None; None; None; Some 4%Q].
Proof. repeat constructor. Qed.

Lemma plot_events_smooth_trailing_witness :
  let w := mkWorld [[mkRow "PushEvent" "jupyter" 0 1 "notebook";
                     mkRow "PushEvent" "jupyter" 7200 2 "notebook";
                     mkRow "ForkEvent" "jupyter" (DAY + 5) 2 "lab";
                     mkRow "PushEvent" "jupyter" (2 * DAY) 3 "lab";
                     mkRow "PushEvent" "jupyter" (2 * DAY + 1) 1 "lab";
                     mkRow "PushEvent" "jupyter" (2 * DAY + 2) 1 "lab"]] [] [] [] [] in
  exists d',
    snd (plot_events 0%nat None None None None 5 FreqD None "actor_id" count
           true (Some 2) [] w) = Ok d' /\
    smoothed (Z.to_nat 2)
      (TimeSeries [(0, Some 2%Q); (DAY, Some 1%Q); (2 * DAY, Some 3%Q)]) d'.
Proof.
  intros w.
  apply (plot_events_smooth_trailing 0%nat None None None None 5 FreqD None
           "actor_id" count 2 [] w
           (TimeSeries [(0, Some 2%Q); (DAY, Some 1%Q); (2 * DAY, Some 3%Q)])).
  - reflexivity.
  - reflexivity.
Defined.

End SmoothClaims.
(** ** [interpolate_one]: outside the series, and the order of the rows *)

Module InterpolateEdges.
Import SortFacts InterpolateFacts GridFacts.

(** No label after the target, or every label after it: [argmax] is 0. *)
Lemma argmax_outside (l : list Timestamp) (target : Timestamp) :
  l <> [] ->
  (forall t, In t l -> target < t) \/ (forall t, In t l -> t < target) ->
  argmax (map (fun t => target <? t) l) = Ok 0.
Proof.
  intros Hne [H | H].
  - destruct l as [| x l]; [contradiction |].
    unfold argmax. simpl.
    assert (E : (target <? x) = true) by (apply Z.ltb_lt, H; left; reflexivity).
    rewrite E. reflexivity.
  - assert (Hnone : first_true (map (fun t => target <? t) l) = None).
    { clear Hne. induction l as [| x l IH]; simpl; [reflexivity |].
      assert (E : (target <? x) = false).
      { apply Z.ltb_ge. specialize (H x (or_introl eq_refl)). lia. }
      rewrite E, IH; [reflexivity |].
      intros t Ht. apply H. right. exact Ht. }
    unfold argmax. rewrite Hnone.
    destruct l; [contradiction | reflexivity].
Qed.

(** With at least two rows the slice [iloc[-1:1]] is empty. *)
Lemma iloc_wrapped_empty {A : Type} (l : list A) :
  (2 <= length l)%nat -> iloc_slice l (0 - 1) (0 + 1) = [].
Proof.
  intros H. unfold iloc_slice, clip_bound.
  change (0 - 1 <? 0) with true. change (0 + 1 <? 0) with false. cbv iota.
  set (n := Z.to_nat _).
  assert (E : n = O) by (unfold n; lia).
  rewrite E. reflexivity.
Qed.

Lemma outside_not_label (ts : Series) (target : Timestamp) :
  (forall t, In t (index ts) -> target < t) \/
  (forall t, In t (index ts) -> t < target) ->
  ~ In target (index ts).
Proof. intros [H | H] Hin; specialize (H target Hin); lia. Qed.

Lemma sort_index_labels (ts : Series) (t : Timestamp) :
  In t (index (sort_index ts)) <-> In t (index ts).
Proof.
  unfold index. split; apply Permutation_in, Permutation_map.
  - apply sort_index_perm.
  - apply Permutation_sym, sort_index_perm.
Qed.

Lemma sort_index_length (ts : Series) : length (sort_index ts) = length ts.
Proof. apply Permutation_length, sort_index_perm. Qed.

Lemma sort_index_single (p : Timestamp * Q) : sort_index [p] = [p].
Proof. reflexivity. Qed.

(** X1. A target before the first row or after the last row is never
    given a number: [interpolate_one] does not extrapolate. On an empty
    series it raises [ValueError], on a series of two rows or more
    [KeyError]; on a single row it raises [KeyError] or yields NaN. *)
Theorem interpolate_one_outside (ts : Series) (target : Timestamp) :
  (forall t, In t (index ts) -> target < t) \/
  (forall t, In t (index ts) -> t < target) ->
  (forall v, interpolate_one ts target <> Ok (Scalar (Some v))) /\
  (ts = [] -> interpolate_one ts target = Raise ValueError) /\
  (length ts = 1%nat ->
   interpolate_one ts target = Raise KeyError \/
   interpolate_one ts target = Ok (Scalar None)) /\
  ((2 <= length ts)%nat -> interpolate_one ts target = Raise KeyError).
Proof.
  intros Hout.
  pose proof (outside_not_label ts target Hout) as Hnot.
  assert (Hout' : (forall t, In t (index (sort_index ts)) -> target < t) \/
                  (forall t, In t (index (sort_index ts)) -> t < target)).
  { destruct Hout as [H | H]; [left | right]; intros t Ht;
      apply H, sort_index_labels, Ht. }
  assert (Hmany : (2 <= length ts)%nat -> interpolate_one ts target = Raise KeyError).
  { intros Hlen. unfold interpolate_one. rewrite (contains_false _ _ Hnot).
    rewrite argmax_outside; [| | exact Hout'].
    - cbn [bind]. rewrite iloc_wrapped_empty by (rewrite sort_index_length; exact Hlen).
      reflexivity.
    - intros E. apply (f_equal (@length Z)) in E. unfold index in E.
      rewrite length_map, sort_index_length in E. simpl in E. lia. }
  assert (Hnil : ts = [] -> interpolate_one ts target = Raise ValueError).
  { intros ->. reflexivity. }
  assert (Hone : length ts = 1%nat ->
                 interpolate_one ts target = Raise KeyError \/
                 interpolate_one ts target = Ok (Scalar None)).
  { intros Hlen. destruct ts as [| [t x] [| q r]]; try discriminate Hlen.
    unfold interpolate_one. rewrite (contains_false _ _ Hnot).
    rewrite argmax_outside; [| discriminate | exact Hout'].
    cbn [bind]. rewrite sort_index_single.
    assert (Ht : t <> target).
    { intros ->. apply Hnot. left. reflexivity. }
    assert (Hr : resample_1d [(t, x)] = Ok [(normalize t, lookup [(t, x)] (normalize t))]).
    { unfold resample_1d, day_range. cbn [index map fst has_dup existsb orb fold_right].
      rewrite Z.sub_diag. change (Z.to_nat (0 / DAY + 1)) with 1%nat.
      cbn [seq map]. change (Z.of_nat 0 * DAY) with 0.
      rewrite Z.add_0_r. reflexivity. }
    change (iloc_slice [(t, x)] (0 - 1) (0 + 1)) with [(t, x)].
    rewrite Hr. cbn [bind]. unfold interpolate_time, loc.
    destruct (normalize t =? target) eqn:E.
    + right. apply Z.eqb_eq in E. rewrite E. unfold lookup. simpl.
      assert (E' : (t =? target) = false) by (apply Z.eqb_neq; exact Ht).
      rewrite E'. simpl. rewrite Z.eqb_refl. reflexivity.
    + left. destruct (lookup [(t, x)] (normalize t)); simpl; rewrite E; reflexivity. }
  split; [| split; [| split]]; try assumption.
  intros v. destruct ts as [| p [| q r]].
  - rewrite Hnil by reflexivity. discriminate.
  - destruct (Hone eq_refl) as [E | E]; rewrite E; discriminate.
  - rewrite Hmany by (simpl; lia). discriminate.
Qed.

Lemma interpolate_one_outside_witness :
  interpolate_one [(2 * DAY, 10%Q); (0, 0%Q); (5 * DAY, 4%Q)] (6 * DAY)
  = Raise KeyError.
Proof.
  apply (proj2 (proj2 (proj2 (interpolate_one_outside
                         [(2 * DAY, 10%Q); (0, 0%Q); (5 * DAY, 4%Q)] (6 * DAY)
                         ltac:(right; simpl; intros t [<- | [<- | [<- | []]]];
                               reflexivity))))).
  simpl. lia.
Defined.

(** Two sorted lists with the same rows and distinct labels are equal. *)
Lemma sorted_unique (l1 l2 : Series) :
  StronglySorted by_label l1 -> StronglySorted by_label l2 ->
  NoDup (index l1) -> Permutation l1 l2 -> l1 = l2.
Proof.
  revert l2. induction l1 as [| a l1 IH]; intros l2 H1 H2 Hnd Hp.
  - apply Permutation_nil in Hp. subst. reflexivity.
  - destruct l2 as [| b l2].
    { apply Permutation_sym, Permutation_nil in Hp. discriminate. }
    inversion H1 as [| ? ? Hs1 Ha]; subst.
    inversion H2 as [| ? ? Hs2 Hb]; subst.
    inversion Hnd as [| ? ? Hna Hnd']; subst.
    assert (Eab : a = b).
    { assert (Hina : In a (b :: l2)).
      { eapply Permutation_in; [exact Hp | left; reflexivity]. }
      assert (Hinb : In b (a :: l1)).
      { eapply Permutation_in; [apply Permutation_sym; exact Hp | left; reflexivity]. }
      destruct Hinb as [E | Hinb]; [exact E |].
      destruct Hina as [E | Hina]; [symmetry; exact E |].
      rewrite Forall_forall in Ha, Hb.
      specialize (Ha b Hinb). specialize (Hb a Hina). unfold by_label in Ha, Hb.
      exfalso. apply Hna.
      replace (fst a) with (fst b) by lia.
      apply in_map. exact Hinb. }
    subst b. f_equal.
    apply IH; try assumption.
    eapply Permutation_cons_inv. exact Hp.
Qed.

(** X2. For a series with distinct labels the result does not depend on
    the order in which the rows are stored. *)
Theorem interpolate_one_any_order (ts ts' : Series) (target : Timestamp) :
  NoDup (index ts) -> Permutation ts ts' ->
  interpolate_one ts target = interpolate_one ts' target.
Proof.
  intros Hnd Hp.
  assert (Hpi : Permutation (index ts) (index ts')).
  { unfold index. apply Permutation_map. exact Hp. }
  assert (Hnd' : NoDup (index ts')).
  { eapply Permutation_NoDup; eassumption. }
  destruct (in_dec Z.eq_dec target (index ts)) as [Hin | Hnot].
  - assert (Hin' : In target (index ts')).
    { eapply Permutation_in; eassumption. }
    unfold interpolate_one.
    rewrite (proj2 (contains_In _ _) Hin), (proj2 (contains_In _ _) Hin').
    unfold index in Hin. apply in_map_iff in Hin.
    destruct Hin as ([t v] & E & Hv). simpl in E. subst t.
    unfold getitem.
    rewrite (filter_label_unique ts target v Hnd Hv).
    rewrite (filter_label_unique ts' target v Hnd').
    + reflexivity.
    + eapply Permutation_in; eassumption.
  - assert (Hnot' : ~ In target (index ts')).
    { intros H. apply Hnot. eapply Permutation_in;
        [apply Permutation_sym; exact Hpi | exact H]. }
    unfold interpolate_one.
    rewrite (contains_false _ _ Hnot), (contains_false _ _ Hnot').
    replace (sort_index ts') with (sort_index ts); [reflexivity |].
    apply sorted_unique.
    + apply sort_index_sorted.
    + apply sort_index_sorted.
    + eapply Permutation_NoDup; [| exact Hnd].
      unfold index. apply Permutation_map, Permutation_sym, sort_index_perm.
    + eapply perm_trans; [apply sort_index_perm |].
      eapply perm_trans; [exact Hp | apply Permutation_sym, sort_index_perm].
Qed.

Lemma interpolate_one_any_order_witness :
  interpolate_one [(2 * DAY, 10%Q); (0, 0%Q); (5 * DAY, 4%Q)] (3 * DAY) =
  interpolate_one [(0, 0%Q); (5 * DAY, 4%Q); (2 * DAY, 10%Q)] (3 * DAY).
Proof.
  apply interpolate_one_any_order.
  - repeat constructor; simpl; intuition discriminate.
  - apply perm_trans with [(0, 0%Q); (2 * DAY, 10%Q); (5 * DAY, 4%Q)].
    + apply perm_swap.
    + apply perm_skip, perm_swap.
Defined.

End InterpolateEdges.
(** ** [interpolate_one]: rows that are not at midnight *)

Module InterpolateOffMidnight.
Import SortFacts InterpolateFacts GridFacts.

Lemma normalize_multiple (t : Timestamp) : normalize t = DAY * (t / DAY).
Proof.
  unfold normalize. pose proof DAY_pos.
  rewrite Z.mod_eq by lia. lia.
Qed.

Lemma normalize_below (t : Timestamp) : normalize t <= t < normalize t + DAY.
Proof.
  unfold normalize. pose proof DAY_pos.
  pose proof (Z.mod_pos_bound t DAY ltac:(lia)). lia.
Qed.

Lemma midnight_multiple (g : Timestamp) : g mod DAY = 0 -> g = DAY * (g / DAY).
Proof.
  intros H. pose proof DAY_pos. apply Z_div_exact_full_2; [lia | exact H].
Qed.

(** A midnight not after [t] is not after the midnight of [t]'s day. *)
Lemma midnight_le_normalize (g t : Timestamp) :
  g mod DAY = 0 -> g <= t -> g <= normalize t.
Proof.
  intros Hg Hle. pose proof DAY_pos as HD.
  rewrite normalize_multiple, (midnight_multiple g Hg).
  apply Z.mul_le_mono_nonneg_l; [lia |].
  apply Z.div_le_mono; lia.
Qed.

(** The labels of the daily grid: the midnights from the first day to the
    last. *)
Lemma day_range_In (a b g : Timestamp) :
  In g (day_range a b) <-> (g mod DAY = 0 /\ normalize a <= g <= normalize b).
Proof.
  pose proof DAY_pos as HD.
  assert (Hq : normalize b - normalize a = DAY * ((normalize b - normalize a) / DAY)).
  { apply Z_div_exact_full_2; [lia |].
    rewrite Zminus_mod, !normalize_mod. reflexivity. }
  split.
  - intros H. split; [eapply day_range_midnight; exact H |].
    unfold day_range in H. apply in_map_iff in H.
    destruct H as (k & <- & Hk). apply in_seq in Hk.
    set (q := (normalize b - normalize a) / DAY) in *. clearbody q.
    assert (Hkq : Z.of_nat k <= q) by lia.
    split; [lia |].
    assert (Z.of_nat k * DAY <= q * DAY) by (apply Z.mul_le_mono_nonneg_r; lia).
    lia.
  - intros (Hg & Hlo & Hhi).
    assert (Hgq : g - normalize a = DAY * ((g - normalize a) / DAY)).
    { apply Z_div_exact_full_2; [lia |].
      rewrite Zminus_mod, Hg, normalize_mod. reflexivity. }
    unfold day_range.
    set (q := (normalize b - normalize a) / DAY) in *. clearbody q.
    set (j := (g - normalize a) / DAY) in *. clearbody j.
    assert (Hj : 0 <= j <= q) by nia.
    apply in_map_iff. exists (Z.to_nat j). split.
    + rewrite Z2Nat.id by lia. lia.
    + apply in_seq. lia.
Qed.

(** On the grid, what precedes a label is earlier than it and what
    follows it is later. *)
Lemma day_range_around (a b target : Timestamp) :
  In target (day_range a b) ->
  exists l1 l2,
    day_range a b = l1 ++ target :: l2 /\
    Forall (fun g => g < target /\ g mod DAY = 0) l1 /\
    Forall (fun g => target < g /\ g mod DAY = 0) l2.
Proof.
  intros Hin. pose proof DAY_pos as HD.
  pose proof Hin as Hin'. unfold day_range in Hin'.
  apply in_map_iff in Hin'. destruct Hin' as (j & Ej & Hj).
  apply in_seq in Hj.
  set (n := Z.to_nat ((normalize b - normalize a) / DAY + 1)) in *.
  exists (map (fun k => normalize a + Z.of_nat k * DAY) (seq 0 j)),
         (map (fun k => normalize a + Z.of_nat k * DAY) (seq (S j) (n - S j))).
  split; [| split].
  - unfold day_range. fold n.
    replace n with (j + S (n - S j))%nat at 1 by lia.
    rewrite seq_app, map_app. cbn [seq map Nat.add]. rewrite Ej. reflexivity.
  - apply Forall_forall. intros g Hg. apply in_map_iff in Hg.
    destruct Hg as (k & <- & Hk). apply in_seq in Hk. split.
    + rewrite <- Ej.
      assert (Z.of_nat k * DAY < Z.of_nat j * DAY)
        by (apply Z.mul_lt_mono_pos_r; lia).
      lia.
    + rewrite Z.add_mod, Z.mod_mul, normalize_mod by lia. reflexivity.
  - apply Forall_forall. intros g Hg. apply in_map_iff in Hg.
    destruct Hg as (k & <- & Hk). apply in_seq in Hk. split.
    + rewrite <- Ej.
      assert (Z.of_nat j * DAY < Z.of_nat k * DAY)
        by (apply Z.mul_lt_mono_pos_r; lia).
      lia.
    + rewrite Z.add_mod, Z.mod_mul, normalize_mod by lia. reflexivity.
Qed.

(** NaN at the start of a series stays NaN. *)
Lemma interpolate_from_leading (l1 l2 : NSeries) (t : Timestamp) :
  Forall (fun e => snd e = None) l1 ->
  interpolate_from None (l1 ++ (t, None) :: l2) =
  l1 ++ (t, None) :: interpolate_from None l2.
Proof.
  induction 1 as [| [g v] l1 Hv _ IH]; simpl; [reflexivity |].
  simpl in Hv. subst v. rewrite IH. reflexivity.
Qed.

Lemma loc_leading (l1 l2 : NSeries) (t : Timestamp) :
  Forall (fun e => snd e = None) l1 ->
  loc (l1 ++ (t, None) :: l2) t = Ok None.
Proof.
  unfold loc. induction 1 as [| [g v] l1 Hv _ IH]; simpl.
  - rewrite Z.eqb_refl. reflexivity.
  - simpl in Hv. subst v. destruct (g =? t); [reflexivity | exact IH].
Qed.

(** After the last valid value, its value is carried forward. *)
Lemma interpolate_from_trailing (x0 : Timestamp) (y0 : Q) (l : list Timestamp) :
  interpolate_from (Some (x0, y0)) (map (fun g => (g, None)) l) =
  map (fun g => (g, Some y0)) l.
Proof.
  assert (Hn : forall l', next_valid (map (fun g : Z => (g, @None Q)) l') = None).
  { induction l' as [| g l' IH]; simpl; [reflexivity | exact IH]. }
  induction l as [| g l IH]; simpl; [reflexivity |].
  rewrite Hn, IH. reflexivity.
Qed.

(** X3. Between two consecutive rows of which the first is not at
    midnight, a target at midnight gets NaN: the first row is not a label
    of the daily grid, and nothing is interpolated before the first valid
    label. *)
Theorem interpolate_one_first_row_late (ts pre post : Series)
    (t1 t2 target : Timestamp) (v1 v2 : Q) :
  sort_index ts = pre ++ (t1, v1) :: (t2, v2) :: post ->
  t1 < target < t2 ->
  t1 mod DAY <> 0 -> target mod DAY = 0 ->
  interpolate_one ts target = Ok (Scalar None).
Proof.
  intros Hs Ht H1 Hm.
  rewrite (interpolate_one_between ts pre post t1 t2 target v1 v2 Hs Ht).
  rewrite resample_pair by lia. cbn [bind].
  assert (Hin : In target (day_range t1 t2)).
  { apply day_range_In. split; [exact Hm |].
    pose proof (normalize_below t1). split; [lia |].
    apply midnight_le_normalize; [exact Hm | lia]. }
  destruct (day_range_around t1 t2 target Hin) as (l1 & l2 & -> & Hl1 & _).
  rewrite map_app, map_cons.
  assert (Hgap : forall g, g mod DAY = 0 -> g <= target ->
                           lookup [(t1, v1); (t2, v2)] g = None).
  { intros g Hg Hle. unfold lookup. simpl.
    assert (E1 : (t1 =? g) = false) by (apply Z.eqb_neq; intros ->; contradiction).
    assert (E2 : (t2 =? g) = false) by (apply Z.eqb_neq; lia).
    rewrite E1, E2. reflexivity. }
  rewrite (Hgap target Hm ltac:(lia)).
  assert (Hnone : Forall (fun e : Z * option Q => snd e = None)
                    (map (fun g => (g, lookup [(t1, v1); (t2, v2)] g)) l1)).
  { rewrite Forall_map. eapply Forall_impl; [| exact Hl1].
    intros g [Hlt Hg]. simpl. apply Hgap; [exact Hg | lia]. }
  unfold interpolate_time.
  rewrite interpolate_from_leading by exact Hnone.
  rewrite loc_leading by exact Hnone. reflexivity.
Qed.

Lemma interpolate_one_first_row_late_witness :
  interpolate_one [(5 * DAY, 4%Q); (2 * DAY + 3600, 10%Q); (0, 0%Q)] (3 * DAY)
  = Ok (Scalar None).
Proof.
  apply (interpolate_one_first_row_late
           [(5 * DAY, 4%Q); (2 * DAY + 3600, 10%Q); (0, 0%Q)]
           [(0, 0%Q)] [] (2 * DAY + 3600) (5 * DAY) (3 * DAY) 10%Q 4%Q).
  - reflexivity.
  - vm_compute. split; reflexivity.
  - vm_compute. discriminate.
  - reflexivity.
Defined.

(** X4. Between two consecutive rows of which the first is at midnight
    and the second is not, a target at midnight gets the value of the
    first row: the second row is not a label of the daily grid, and the
    last valid value is carried forward. *)
Theorem interpolate_one_second_row_late (ts pre post : Series)
    (t1 t2 target : Timestamp) (v1 v2 : Q) :
  sort_index ts = pre ++ (t1, v1) :: (t2, v2) :: post ->
  t1 < target < t2 ->
  t1 mod DAY = 0 -> t2 mod DAY <> 0 -> target mod DAY = 0 ->
  interpolate_one ts target = Ok (Scalar (Some v1)).
Proof.
  intros Hs Ht H1 H2 Hm.
  rewrite (interpolate_one_between ts pre post t1 t2 target v1 v2 Hs Ht).
  rewrite resample_pair by lia. cbn [bind].
  assert (Hin : In target (day_range t1 t2)).
  { apply day_range_In. split; [exact Hm |].
    rewrite (normalize_aligned t1 H1). split; [lia |].
    apply midnight_le_normalize; [exact Hm | lia]. }
  assert (Hfirst : In t1 (day_range t1 t2)).
  { apply day_range_In. split; [exact H1 |].
    rewrite (normalize_aligned t1 H1). split; [lia |].
    apply midnight_le_normalize; [exact H1 | lia]. }
  destruct (day_range_around t1 t2 t1 Hfirst) as (l1 & l2 & E & Hl1 & Hl2).
  assert (El1 : l1 = []).
  { destruct l1 as [| g l1]; [reflexivity |]. exfalso.
    inversion Hl1 as [| ? ? [Hg Hgm] _]; subst.
    assert (Hing : In g (day_range t1 t2)) by (rewrite E; left; reflexivity).
    apply day_range_In in Hing. rewrite (normalize_aligned t1 H1) in Hing. lia. }
  subst l1. simpl in E.
  assert (Htail : forall g, In g l2 -> lookup [(t1, v1); (t2, v2)] g = None).
  { intros g Hg. rewrite Forall_forall in Hl2.
    destruct (Hl2 g Hg) as [Hlt Hgm].
    unfold lookup. simpl.
    assert (E1 : (t1 =? g) = false) by (apply Z.eqb_neq; lia).
    assert (E2 : (t2 =? g) = false) by (apply Z.eqb_neq; intros ->; contradiction).
    rewrite E1, E2. reflexivity. }
  rewrite E. rewrite map_cons.
  rewrite (map_ext_in _ (fun g => (g, @None Q)) l2)
    by (intros g Hg; rewrite (Htail g Hg); reflexivity).
  assert (L1 : lookup [(t1, v1); (t2, v2)] t1 = Some v1).
  { unfold lookup. simpl. rewrite Z.eqb_refl. reflexivity. }
  rewrite L1. unfold interpolate_time. cbn [interpolate_from].
  rewrite interpolate_from_trailing.
  unfold loc. cbn [find fst].
  assert (E1 : (t1 =? target) = false) by (apply Z.eqb_neq; lia).
  rewrite E1.
  assert (Hl2' : In target l2).
  { rewrite E in Hin. destruct Hin as [<- | Hin]; [lia | exact Hin]. }
  pose proof (loc_found (fun _ => Some v1) l2 [] target Hl2') as Hloc.
  unfold loc in Hloc. rewrite app_nil_r in Hloc.
  destruct (find _ _) as [[u v] |]; [| discriminate].
  inversion Hloc. reflexivity.
Qed.

Lemma interpolate_one_second_row_late_witness :
  interpolate_one [(5 * DAY + 7200, 4%Q); (2 * DAY, 10%Q); (0, 0%Q)] (4 * DAY)
  = Ok (Scalar (Some 10%Q)).
Proof.
  apply (interpolate_one_second_row_late
           [(5 * DAY + 7200, 4%Q); (2 * DAY, 10%Q); (0, 0%Q)]
           [(0, 0%Q)] [] (2 * DAY) (5 * DAY + 7200) (4 * DAY) 10%Q 4%Q).
  - reflexivity.
  - vm_compute. split; reflexivity.
  - reflexivity.
  - vm_compute. discriminate.
  - reflexivity.
Defined.

End InterpolateOffMidnight.
(** ** [add_lines]: any number of entries, and failures *)

Module AddLinesMore.
Import SpecMore AddLinesClaims.

(** The label at position [j] of [labels] is the entry at position [j],
    placed according to [i + j]. *)
Lemma labels_nth (alternate : bool) (lines : Lines) (ys : list item) :
  forall (i j : nat) (date : Timestamp) (text : string) (y : item),
    nth_error lines j = Some (date, text) ->
    nth_error ys j = Some y ->
    nth_error (labels alternate i lines ys) j =
      Some (Annotation text (date, y) (fst (placement (i + j) alternate))
              (snd (placement (i + j) alternate))).
Proof.
  revert ys. induction lines as [| [d s] lines IH]; intros ys i j date text y Hl Hy.
  - destruct j; discriminate.
  - destruct ys as [| y0 ys]; [destruct j; discriminate |].
    destruct j as [| j]; simpl in *.
    + inversion Hl; inversion Hy; subst. rewrite Nat.add_0_r. reflexivity.
    + rewrite (IH ys (S i) j date text y Hl Hy).
      replace (S i + j)%nat with (i + S j)%nat by lia. reflexivity.
Qed.

Lemma labels_length (alternate : bool) (lines : Lines) (ys : list item) :
  length ys = length lines ->
  forall i, length (labels alternate i lines ys) = length lines.
Proof.
  revert ys. induction lines as [| [d s] lines IH]; intros ys H i.
  - reflexivity.
  - destruct ys as [| y ys]; [discriminate |]. simpl in *.
    rewrite IH by lia. reflexivity.
Qed.

(** The loop over entries that can all be interpolated. *)
Lemma add_lines_from_all (sample : Series) (alternate : bool) (lines : Lines)
    (ys : list item) :
  Forall2 (fun e y => interpolate_one sample (fst e) = Ok y) lines ys ->
  forall (i : nat) (w : World),
    add_lines_from sample alternate i lines w =
      (drawn w (labels alternate i lines ys), Ok tt).
Proof.
  induction 1 as [| [d s] y lines ys Hy _ IH]; intros i w.
  - simpl. rewrite drawn_nil. reflexivity.
  - simpl in Hy. rewrite (add_lines_from_step _ _ _ _ _ _ _ _ Hy).
    rewrite IH, drawn_drawn. reflexivity.
Qed.

(** The loop stops at the first entry that cannot be interpolated. *)
Lemma add_lines_from_stops (sample : Series) (alternate : bool) (pre : Lines)
    (ys : list item) (date : Timestamp) (text : string) (post : Lines) (e : exn) :
  Forall2 (fun e y => interpolate_one sample (fst e) = Ok y) pre ys ->
  interpolate_one sample date = Raise e ->
  forall (i : nat) (w : World),
    add_lines_from sample alternate i (pre ++ (date, text) :: post) w =
      (drawn w (labels alternate i pre ys), Raise e).
Proof.
  intros Hpre He. induction Hpre as [| [d s] y pre ys Hy _ IH]; intros i w.
  - simpl. destruct (placement i alternate) as [xy align].
    unfold bindM, lift. rewrite He. rewrite drawn_nil. reflexivity.
  - simpl in Hy. rewrite <- app_comm_cons.
    rewrite (add_lines_from_step _ _ _ _ _ _ _ _ Hy).
    rewrite IH, drawn_drawn. reflexivity.
Qed.

(** X5. When every date of the annotation map can be interpolated,
    [add_lines] draws one annotation per entry, in the order of the map and
    at the interpolated height; the entry at an odd position is placed at
    (64, -80) with left alignment when [alternate] is true, every other
    entry at (-64, 100) with right alignment. Nothing else changes: no
    table, file, directory or output. Without [lines] the configured dates
    are used. *)
Theorem add_lines_all (config_dates : Lines) (sample : Series)
    (lines : option Lines) (alternate : bool) (ys : list item) (w : World) :
  let entries := match lines with Some l => l | None => config_dates end in
  Forall2 (fun e y => interpolate_one sample (fst e) = Ok y) entries ys ->
  exists drawing,
    add_lines config_dates sample lines alternate w = (drawn w drawing, Ok tt) /\
    length drawing = length entries /\
    (forall j date text y,
        nth_error entries j = Some (date, text) ->
        nth_error ys j = Some y ->
        nth_error drawing j =
          Some (if (alternate && Nat.odd j)%bool
                then Annotation text (date, y) (64, -80) "left"
                else Annotation text (date, y) (-64, 100) "right")).
Proof.
  intros entries Hall.
  exists (labels alternate 0 entries ys). split; [| split].
  - unfold add_lines. fold entries. apply add_lines_from_all. exact Hall.
  - apply labels_length. symmetry. eapply Forall2_length. exact Hall.
  - intros j date text y Hl Hy.
    rewrite (labels_nth alternate entries ys 0 j date text y Hl Hy).
    unfold placement. cbn [Nat.add].
    rewrite <- Nat.negb_even.
    replace (Nat.modulo j 2 =? 0)%nat with (Nat.even j).
    + destruct alternate, (Nat.even j); reflexivity.
    + destruct (Nat.even j) eqn:E.
      * apply Nat.even_spec in E. destruct E as [k ->].
        symmetry. apply Nat.eqb_eq. rewrite Nat.mul_comm. apply Nat.Div0.mod_mul.
      * symmetry. apply Nat.eqb_neq. intros Hm.
        apply Nat.Div0.mod_divides in Hm. destruct Hm as [k ->].
        rewrite Nat.even_mul in E. discriminate.
Qed.

Lemma add_lines_all_witness :
  let sample := [(0, 0%Q); (4 * DAY, 8%Q)] in
  let w := mkWorld [] [Grid false] [] [] [] in
  exists drawing,
    add_lines [(0, "start"%string); (4 * DAY, "end"%string)] sample None true w
      = (drawn w drawing, Ok tt) /\
    length drawing = 2%nat /\
    (forall j date text y,
        nth_error [(0, "start"%string); (4 * DAY, "end"%string)] j = Some (date, text) ->
        nth_error [Scalar (Some 0%Q); Scalar (Some 8%Q)] j = Some y ->
        nth_error drawing j =
          Some (if (true && Nat.odd j)%bool
                then Annotation text (date, y) (64, -80) "left"
                else Annotation text (date, y) (-64, 100) "right")).
Proof.
  intros sample w.
  apply (add_lines_all [(0, "start"%string); (4 * DAY, "end"%string)] sample None
           true [Scalar (Some 0%Q); Scalar (Some 8%Q)] w).
  repeat constructor.
Defined.

(** X6. When the dates of the first entries can be interpolated and the
    next one cannot, [add_lines] raises the error of that date; the
    annotations of the entries before it have been drawn and stay, the
    entries after it are not looked at. *)
Theorem add_lines_stops_at_failure (config_dates : Lines) (sample : Series)
    (alternate : bool) (pre post : Lines) (ys : list item) (date : Timestamp)
    (text : string) (e : exn) (w : World) :
  Forall2 (fun e y => interpolate_one sample (fst e) = Ok y) pre ys ->
  interpolate_one sample date = Raise e ->
  add_lines config_dates sample (Some (pre ++ (date, text) :: post)) alternate w =
    (drawn w (labels alternate 0 pre ys), Raise e) /\
  length (labels alternate 0 pre ys) = length pre.
Proof.
  intros Hpre He. split.
  - unfold add_lines. apply add_lines_from_stops; assumption.
  - apply labels_length. symmetry. eapply Forall2_length. exact Hpre.
Qed.

Lemma add_lines_stops_at_failure_witness :
  let sample := [(0, 0%Q); (4 * DAY, 8%Q)] in
  let w := mkWorld [] [] [] [] [] in
  add_lines [] sample
    (Some ([(0, "start"%string)]
           ++ (5 * DAY, "late"%string) :: [(4 * DAY, "end"%string)])) true w =
    (drawn w (labels true 0 [(0, "start"%string)] [Scalar (Some 0%Q)]),
     Raise KeyError) /\
  length (labels true 0 [(0, "start"%string)] [Scalar (Some 0%Q)]) = 1%nat.
Proof.
  intros sample w.
  apply (add_lines_stops_at_failure [] sample true [(0, "start"%string)]
           [(4 * DAY, "end"%string)] [Scalar (Some 0%Q)] (5 * DAY) "late" KeyError w).
  - repeat constructor.
  - reflexivity.
Defined.

End AddLinesMore.
(** ** [plot_events]: drawing defaults, filters left out *)

Module PlotEventsMore.
Import PlotEventsFacts.

Lemma get_app_one (d : kwargs) (k k' : string) (v : argval) :
  get (d ++ [(k, v)]) k' =
  match get d k' with
  | Some x => Some x
  | None => if String.eqb k k' then Some v else None
  end.
Proof.
  unfold get. induction d as [| [a x] d IH]; simpl.
  - destruct (String.eqb k k'); reflexivity.
  - destruct (String.eqb a k'); [reflexivity | exact IH].
Qed.

Lemma get_setdefault (d : kwargs) (k k' : string) (v : argval) :
  get (setdefault d k v) k' =
  match get d k' with
  | Some x => Some x
  | None => if String.eqb k k' then Some v else None
  end.
Proof.
  unfold setdefault. destruct (get d k) as [x |] eqn:E.
  - destruct (get d k') as [x' |] eqn:E'; [reflexivity |].
    destruct (String.eqb k k') eqn:Ek; [| reflexivity].
    apply String.eqb_eq in Ek. subst k'. congruence.
  - apply get_app_one.
Qed.

(** X8. The drawing options of the caller win over the defaults: every
    option passed is handed on unchanged; [kind] defaults to ["area"] for a
    time series and to ["bar"] otherwise; [linewidth] defaults to 0 for a
    time series drawn as an area, and only then. *)
Theorem plot_defaults_keep_options (timeseries : bool) (plot_args : kwargs) :
  (forall k v, get plot_args k = Some v ->
               get (plot_defaults timeseries plot_args) k = Some v) /\
  get (plot_defaults timeseries plot_args) "kind" =
    Some match get plot_args "kind" with
         | Some v => v
         | None => AStr (if timeseries then "area" else "bar")
         end /\
  (get plot_args "linewidth" = None ->
   get (plot_defaults timeseries plot_args) "linewidth" =
     if (timeseries
         && match get plot_args "kind" with
            | Some v => argval_eqb v (AStr "area")
            | None => true
            end)%bool
     then Some (ANum 0) else None) /\
  (forall k, k <> "kind"%string -> k <> "linewidth"%string ->
             get (plot_defaults timeseries plot_args) k = get plot_args k).
Proof.
  unfold plot_defaults.
  assert (Hkind : get (setdefault plot_args "kind" (AStr "area")) "kind" =
                  Some match get plot_args "kind" with
                       | Some v => v
                       | None => AStr "area"
                       end).
  { rewrite get_setdefault. destruct (get plot_args "kind"); reflexivity. }
  destruct timeseries; cbn [andb].
  - rewrite Hkind.
    set (area := match get plot_args "kind" with
                 | Some v => argval_eqb v (AStr "area")
                 | None => true
                 end).
    assert (Earea : argval_eqb match get plot_args "kind" with
                               | Some v => v
                               | None => AStr "area"
                               end (AStr "area") = area).
    { unfold area. destruct (get plot_args "kind"); reflexivity. }
    rewrite Earea.
    split; [| split; [| split]].
    + intros k v H. destruct area; rewrite ?get_setdefault, H; reflexivity.
    + destruct area; rewrite ?get_setdefault; rewrite ?Hkind;
        destruct (get plot_args "kind"); reflexivity.
    + intros H. destruct area; rewrite ?get_setdefault, H; reflexivity.
    + intros k Hk Hl.
      assert (E1 : String.eqb "kind" k = false)
        by (apply String.eqb_neq; congruence).
      assert (E2 : String.eqb "linewidth" k = false)
        by (apply String.eqb_neq; congruence).
      destruct area; rewrite ?get_setdefault, ?E1, ?E2;
        destruct (get plot_args k); reflexivity.
  - split; [| split; [| split]].
    + intros k v H. rewrite get_setdefault, H. reflexivity.
    + rewrite get_setdefault. destruct (get plot_args "kind"); reflexivity.
    + intros H. rewrite get_setdefault, H. reflexivity.
    + intros k Hk Hl.
      assert (E1 : String.eqb "kind" k = false)
        by (apply String.eqb_neq; congruence).
      rewrite get_setdefault, E1. destruct (get plot_args k); reflexivity.
Qed.

Lemma plot_defaults_keep_options_witness :
  get (plot_defaults true [("kind"%string, AStr "line")]) "linewidth" = None.
Proof.
  apply (proj1 (proj2 (proj2 (plot_defaults_keep_options true
                                 [("kind"%string, AStr "line")])))).
  reflexivity.
Defined.

Lemma build_mask_not_given (df : DataFrame) (events org : option names)
    (since : option Timestamp) (year : option Z) :
  given_names events = false -> given_names org = false ->
  year = None \/ year = Some 0 ->
  build_mask df events org since year = build_mask df None None since None.
Proof.
  intros He Ho Hy. unfold build_mask. rewrite He, Ho.
  destruct Hy as [-> | ->]; reflexivity.
Qed.

(** X9. An empty string or an empty list for [events] or [org], and the
    year 0, count as not given: the call behaves in every respect like
    the call without these arguments, so an empty list of event types
    selects every row, not none. *)
Theorem plot_events_empty_filters (df : ref) (events org : option names)
    (since : option Timestamp) (year : option Z) (n : Z) (freq : Freq)
    (groupby : option string) (column : string) (metric : Metric)
    (timeseries : bool) (smooth : option Z) (plot_args : kwargs) (w : World) :
  (events = None \/ events = Some (One EmptyString) \/ events = Some (Many [])) ->
  (org = None \/ org = Some (One EmptyString) \/ org = Some (Many [])) ->
  (year = None \/ year = Some 0) ->
  plot_events df events org since year n freq groupby column metric
    timeseries smooth plot_args w =
  plot_events df None None since None n freq groupby column metric
    timeseries smooth plot_args w.
Proof.
  intros He Ho Hy. unfold plot_events.
  rewrite (build_mask_not_given (deref w df) events org since year).
  - reflexivity.
  - destruct He as [-> | [-> | ->]]; reflexivity.
  - destruct Ho as [-> | [-> | ->]]; reflexivity.
  - exact Hy.
Qed.

Lemma plot_events_empty_filters_witness :
  let w := mkWorld [[mkRow "PushEvent" "jupyter" 0 1 "notebook";
                     mkRow "ForkEvent" "ipython" DAY 2 "ipython"]] [] [] [] [] in
  plot_events 0%nat (Some (Many [])) (Some (One EmptyString)) None (Some 0) 5 FreqM
    (Some "repo_name"%string) "actor_id" count false None [] w =
  plot_events 0%nat None None None None 5 FreqM
    (Some "repo_name"%string) "actor_id" count false None [] w.
Proof.
  intros w.
  apply (plot_events_empty_filters 0%nat (Some (Many [])) (Some (One EmptyString))
           None (Some 0) 5 FreqM (Some "repo_name"%string) "actor_id" count false
           None [] w).
  - right. right. reflexivity.
  - right. left. reflexivity.
  - right. reflexivity.
Defined.

End PlotEventsMore.
(** ** [plot_events]: unknown grouping, and the shape of the result *)

Module PlotEventsShape.
Import PlotEventsFacts RollingFacts.

Lemma column_of_named (g : string) (key : Row -> value) :
  column_of g = Some key -> given_name (Some g) = true.
Proof.
  intros H. simpl. destruct (String.eqb g EmptyString) eqn:E; [| reflexivity].
  apply String.eqb_eq in E. subst g. discriminate.
Qed.

(** X10. A [groupby] that names no column makes [plot_events] raise
    [KeyError] (for a time series also when it is the empty string); a
    negative [smooth] on a time series that could be aggregated makes it
    raise [ValueError]. *)
Theorem plot_events_bad_arguments (df : ref) (events org : option names)
    (since : option Timestamp) (year : option Z) (n : Z) (freq : Freq)
    (groupby : option string) (column : string) (metric : Metric)
    (timeseries : bool) (smooth : option Z) (plot_args : kwargs) (w : World) :
  (forall g, groupby = Some g -> column_of g = None ->
             timeseries = true \/ g <> EmptyString ->
             snd (plot_events df events org since year n freq groupby column
                    metric timeseries smooth plot_args w) = Raise KeyError) /\
  (forall k d, smooth = Some k -> k < 0 -> timeseries = true ->
               snd (plot_events df events org since year n freq groupby column
                      metric true None plot_args w) = Ok d ->
               snd (plot_events df events org since year n freq groupby column
                      metric timeseries smooth plot_args w) = Raise ValueError).
Proof.
  split.
  - intros g -> Hg Hm. rewrite plot_events_returns. unfold aggregate_events.
    destruct timeseries.
    + cbn [given_grouper groupby_frame]. rewrite Hg. reflexivity.
    + destruct Hm as [Hm | Hm]; [discriminate |].
      cbn [given_grouper given_name]. apply String.eqb_neq in Hm. rewrite Hm.
      cbn [negb groupby_frame]. rewrite Hg. reflexivity.
  - intros k d -> Hk -> Hd. rewrite plot_events_returns in *.
    rewrite aggregate_events_smooth by lia. rewrite Hd. cbn [bind].
    unfold rolling_mean.
    assert (E : (k <? 0) = true) by (apply Z.ltb_lt; exact Hk).
    rewrite E. reflexivity.
Qed.

Lemma plot_events_bad_arguments_witness :
  snd (plot_events 0%nat None None None None 5 FreqM (Some "language"%string)
         "actor_id" count false None []
         (mkWorld [[mkRow "PushEvent" "jupyter" 0 1 "notebook"]] [] [] [] []))
  = Raise KeyError.
Proof.
  apply (proj1 (plot_events_bad_arguments 0%nat None None None None 5 FreqM
                  (Some "language"%string) "actor_id" count false None []
                  (mkWorld [[mkRow "PushEvent" "jupyter" 0 1 "notebook"]] [] [] [] []))
           "language"%string).
  - reflexivity.
  - reflexivity.
  - right. discriminate.
Defined.

Lemma roll_mean_length (k : nat) (xs : list (option Q)) :
  length (roll_mean k xs) = length xs.
Proof. unfold roll_mean. apply roll_mean_loop_length. Qed.

Lemma with_values_valid {A : Type} (l : list (A * Q)) :
  Forall (fun e : A * option Q => snd e <> None) (with_values l).
Proof.
  unfold with_values. rewrite Forall_map.
  apply Forall_forall. intros e _. simpl. discriminate.
Qed.

Lemma top_length {A : Type} (n : Z) (s : list (A * option Q)) :
  (length (with_values (top n s)) <= Z.to_nat n)%nat.
Proof.
  unfold with_values, top. rewrite length_map.
  apply firstn_le_length.
Qed.

(** X11. The shape of what [plot_events] returns follows the mode.
    Without a time series it is a series over the groups, without NaN and
    with at most [n] entries. For a time series without [groupby] it is a
    series over time. For a time series with [groupby] it is a table with
    one column per group, each column having one entry per label of the
    time index, smoothed or not. *)
Theorem plot_events_shape (df : ref) (events org : option names)
    (since : option Timestamp) (year : option Z) (n : Z) (freq : Freq)
    (groupby : option string) (column : string) (metric : Metric)
    (timeseries : bool) (smooth : option Z) (plot_args : kwargs) (w : World)
    (d : Data) :
  snd (plot_events df events org since year n freq groupby column metric
         timeseries smooth plot_args w) = Ok d ->
  match d with
  | GroupSeries s =>
      timeseries = false /\ given_name groupby = true /\
      Forall (fun e => snd e <> None) s /\ (length s <= Z.to_nat n)%nat
  | TimeSeries s => timeseries = true /\ groupby = None
  | TimeFrame idx cols =>
      timeseries = true /\ given_name groupby = true /\
      Forall (fun c => length (snd c) = length idx) cols
  | MultiSeries _ => False
  end.
Proof.
  rewrite plot_events_returns. unfold aggregate_events.
  set (rows := filtered (deref w df) events org since year). clearbody rows.
  destruct timeseries.
  - cbn [given_grouper groupby_frame].
    destruct groupby as [g |].
    + destruct (column_of g) as [key |] eqn:Hkey; [| discriminate].
      cbn [bind]. destruct (select_column column) as [col | e]; [| discriminate].
      cbn [bind]. rewrite (column_of_named g key Hkey).
      cbn [aggregate unstack bind].
      set (s := flat_map _ _). clearbody s.
      set (idx := sort_times _).
      set (cols := map _ (group_labels _)).
      assert (Hcols : Forall (fun c : value * list (option Q) =>
                                length (snd c) = length idx) cols).
      { unfold cols. rewrite Forall_map. apply Forall_forall.
        intros k _. simpl. apply length_map. }
      clearbody cols idx.
      assert (Hroll : forall k,
                 Forall (fun c : value * list (option Q) =>
                           length (snd c) = length idx)
                   (map (fun c => (fst c, roll_mean k (snd c))) cols)).
      { intros k. rewrite Forall_map. eapply Forall_impl; [| exact Hcols].
        intros c Hc. simpl. rewrite roll_mean_length. exact Hc. }
      destruct smooth as [k |].
      * destruct (k =? 0).
        -- intros H. inversion H; subst. repeat split. exact Hcols.
        -- unfold rolling_mean. destruct (k <? 0); [discriminate |].
           intros H. inversion H; subst. repeat split. apply Hroll.
      * intros H. inversion H; subst. repeat split. exact Hcols.
    + cbn [bind]. destruct (select_column column) as [col | e]; [| discriminate].
      cbn [bind given_name aggregate].
      destruct smooth as [k |].
      * destruct (k =? 0).
        -- intros H. inversion H; subst. split; reflexivity.
        -- unfold rolling_mean. destruct (k <? 0); [discriminate |].
           intros H. inversion H; subst. split; reflexivity.
      * intros H. inversion H; subst. split; reflexivity.
  - cbn [given_grouper].
    destruct (given_name groupby) eqn:Hg; [| discriminate].
    destruct groupby as [g |]; [| discriminate].
    cbn [groupby_frame].
    destruct (column_of g) as [key |]; [| discriminate].
    cbn [bind]. destruct (select_column column) as [col | e]; [| discriminate].
    cbn [bind aggregate nlargest].
    intros H. inversion H; subst.
    repeat split; [apply with_values_valid | apply top_length].
Qed.

Lemma plot_events_shape_witness :
  match TimeFrame [0; DAY]
          [(VStr "lab", [None; Some 1%Q]); (VStr "notebook", [Some 2%Q; None])] with
  | GroupSeries s =>
      true = false /\ given_name (Some "repo_name"%string) = true /\
      Forall (fun e => snd e <> None) s /\ (length s <= Z.to_nat 5)%nat
  | TimeSeries s => true = true /\ Some "repo_name"%string = None
  | TimeFrame idx cols =>
      true = true /\ given_name (Some "repo_name"%string) = true /\
      Forall (fun c => length (snd c) = length idx) cols
  | MultiSeries _ => False
  end.
Proof.
  apply (plot_events_shape 0%nat None None None None 5 FreqD
           (Some "repo_name"%string) "actor_id" count true None []
           (mkWorld [[mkRow "PushEvent" "jupyter" 0 1 "notebook";
                      mkRow "PushEvent" "jupyter" 7200 2 "notebook";
                      mkRow "ForkEvent" "jupyter" (DAY + 5) 2 "lab"]] [] [] [] [])).
  reflexivity.
Defined.

End PlotEventsShape.
(** ** [savefig]: names with a directory part, and the other files *)

Module SavefigMore.
Import SavefigClaims.










(** X14. A successful [savefig] replaces what was stored at the path and
    leaves every other file as it was: afterwards the path holds the
    active figure and nothing else, and a different path holds what it
    held before. *)
Theorem savefig_other_files (home name : string) (params : kwargs) (w w' : World) :
  let dest := joinpath (dest_dir home) (name ++ ".pdf") in
  path_exists w (dest_dir home) = true ->
  savefig home name params w = (w', Ok tt) ->
  (forall c, In (dest, c) (files w') <-> c = (figure w, params)) /\
  (forall p c, p <> dest -> (In (p, c) (files w') <-> In (p, c) (files w))).
Proof.
  intros dest Hd. unfold savefig. rewrite Hd. cbn [negb].
  unfold bindM, plt_savefig. fold dest.
  destruct (is_dir w (parent dest));
    [| destruct (is_file w (parent dest)); discriminate].
  destruct (is_dir w dest); [discriminate |].
  intros H. inversion H; subst w'. clear H. simpl. split.
  - intros c. split.
    + intros [E | Hin]; [inversion E; reflexivity |].
      apply filter_In in Hin. destruct Hin as [_ Hne]. simpl in Hne.
      rewrite String.eqb_refl in Hne. discriminate.
    + intros ->. left. reflexivity.
  - intros p c Hp. split.
    + intros [E | Hin]; [inversion E; subst; contradiction |].
      apply filter_In in Hin. tauto.
    + intros Hin. right. apply filter_In. split; [exact Hin |]. simpl.
      apply negb_true_iff, String.eqb_neq. exact Hp.
Qed.

Lemma savefig_other_files_witness :
  let w := mkWorld [] [Grid false]
             ["/home/ana/Documents/Jupyter/pres/2020/jupytercon"%string]
             [("/home/ana/Documents/Jupyter/pres/2020/jupytercon/stars.pdf"%string,
               ([], []));
              ("/home/ana/notes.txt"%string, ([], []))] [] in
  In ("/home/ana/notes.txt"%string, ([], []))
     (files (fst (savefig "/home/ana" "stars" [] w))) <->
  In ("/home/ana/notes.txt"%string, ([], [])) (files w).
Proof.
  intros w.
  apply (proj2 (savefig_other_files "/home/ana" "stars" [] w
                  (fst (savefig "/home/ana" "stars" [] w))
                  ltac:(reflexivity) ltac:(reflexivity))
           "/home/ana/notes.txt"%string ([], [])).
  discriminate.
Defined.

End SavefigMore.
(** ** Smoothing with a window of one *)

Module SmoothOne.
Import SpecMore PlotEventsFacts RollingFacts.

Lemma same_sym (a b : option Q) : same a b -> same b a.
Proof.
  destruct a, b; simpl; try tauto. intros H. symmetry. exact H.
Qed.

Lemma same_trans (a b c : option Q) : same a b -> same b c -> same a c.
Proof.
  destruct a, b, c; simpl; try tauto. intros H1 H2. rewrite H1. exact H2.
Qed.

(** With a window of one the trailing mean is the value itself. *)
Lemma trailing_mean_one (xs : list (option Q)) (i : nat) :
  same (trailing_mean 1 xs i) (nth i xs None).
Proof.
  unfold trailing_mean, window_mean.
  replace (Nat.leb 1 (i + 1)) with true by (symmetry; apply Nat.leb_le; lia).
  replace (i + 1 - 1)%nat with i by lia.
  cbn [window_obs window_sum].
  destruct (nth i xs None) as [v |]; simpl; [| exact I].
  unfold Qdiv. change (/ inject_Z 1)%Q with 1%Q. ring.
Qed.

Lemma pointwise_Forall2 (R : option Q -> option Q -> Prop) (xs ys : list (option Q)) :
  length ys = length xs ->
  (forall i, (i < length xs)%nat -> R (nth i xs None) (nth i ys None)) ->
  Forall2 R xs ys.
Proof.
  revert ys. induction xs as [| x xs IH]; intros [| y ys] Hl H;
    try discriminate; constructor.
  - apply (H 0%nat). simpl. lia.
  - apply IH; [simpl in Hl; lia |].
    intros i Hi. apply (H (S i)). simpl. lia.
Qed.

Lemma trailing_one (xs ys : list (option Q)) :
  trailing 1 xs ys -> Forall2 same xs ys.
Proof.
  intros [Hl H]. apply pointwise_Forall2; [exact Hl |].
  intros i Hi. apply same_sym.
  eapply same_trans; [apply H; exact Hi | apply trailing_mean_one].
Qed.

Lemma smoothed_one (d d' : Data) : smoothed 1 d d' -> same_data d d'.
Proof.
  destruct d as [s | s | s | idx cols], d' as [s' | s' | s' | idx' cols'];
    simpl; try tauto.
  - intros [E H]. split; [exact E | apply trailing_one; exact H].
  - intros [E H]. split; [exact E | apply trailing_one; exact H].
  - intros [E H]. split; [exact E | apply trailing_one; exact H].
  - intros (E & Ef & H). split; [exact E |].
    clear E. revert Ef. induction H as [| c c' cols cols' Hc _ IH]; intros Ef.
    + constructor.
    + simpl in Ef. inversion Ef. constructor.
      * split; [assumption | apply trailing_one; exact Hc].
      * apply IH. assumption.
Qed.

(** X16. Smoothing a time series with a window of one changes nothing:
    whenever the call without smoothing returns [d], the call with
    [smooth=1] returns the same labels and, up to the representation of
    rationals, the same values, NaN included. *)
Theorem plot_events_smooth_one (df : ref) (events org : option names)
    (since : option Timestamp) (year : option Z) (n : Z) (freq : Freq)
    (groupby : option string) (column : string) (metric : Metric)
    (plot_args : kwargs) (w : World) (d : Data) :
  snd (plot_events df events org since year n freq groupby column metric
         true None plot_args w) = Ok d ->
  exists d',
    snd (plot_events df events org since year n freq groupby column metric
           true (Some 1) plot_args w) = Ok d' /\
    same_data d d'.
Proof.
  intros Hd. rewrite plot_events_returns in *.
  rewrite aggregate_events_smooth by lia. rewrite Hd. cbn [bind].
  destruct (rolling_mean_smoothed 1 d ltac:(lia)) as (d' & E & Hs).
  exists d'. split; [exact E |].
  apply smoothed_one. exact Hs.
Qed.

Lemma plot_events_smooth_one_witness :
  let w := mkWorld [[mkRow "PushEvent" "jupyter" 0 1 "notebook";
                     mkRow "PushEvent" "jupyter" 7200 2 "notebook";
                     mkRow "ForkEvent" "jupyter" (2 * DAY + 5) 2 "lab"]] [] [] [] [] in
  exists d',
    snd (plot_events 0%nat None None None None 5 FreqD None "actor_id" count
           true (Some 1) [] w) = Ok d' /\
    same_data (TimeSeries [(0, Some 2%Q); (DAY, Some 0%Q); (2 * DAY, Some 1%Q)]) d'.
Proof.
  intros w.
  apply (plot_events_smooth_one 0%nat None None None None 5 FreqD None
           "actor_id" count [] w
           (TimeSeries [(0, Some 2%Q); (DAY, Some 0%Q); (2 * DAY, Some 1%Q)])).
  reflexivity.
Defined.

End SmoothOne.
(** ** Annotating at dates of the series *)

Module Composition.
Import SpecMore InterpolateFacts AddLinesClaims AddLinesMore.

Lemma lookup_unique (s : Series) (t : Timestamp) (v : Q) :
  NoDup (index s) -> In (t, v) s -> lookup s t = Some v.
Proof.
  intros Hnd Hin. unfold lookup.
  induction s as [| [u x] r IH]; simpl in *; [contradiction |].
  inversion Hnd as [| ? ? Hu Hr]; subst.
  destruct (u =? t) eqn:E.
  - apply Z.eqb_eq in E. subst u. destruct Hin as [H | H].
    + inversion H. reflexivity.
    + exfalso. apply Hu. change t with (fst (t, v)). apply in_map. exact H.
  - destruct Hin as [H | H].
    + inversion H; subst. rewrite Z.eqb_refl in E. discriminate.
    + apply IH; assumption.
Qed.

(** At a label of a series with distinct labels, the stored value. *)
Lemma interpolate_one_label (s : Series) (t : Timestamp) :
  NoDup (index s) -> In t (index s) ->
  exists v, In (t, v) s /\ lookup s t = Some v /\
            interpolate_one s t = Ok (Scalar (Some v)).
Proof.
  intros Hnd Hin. pose proof Hin as Hin'.
  unfold index in Hin'. apply in_map_iff in Hin'.
  destruct Hin' as ([u v] & E & Hv). simpl in E. subst u.
  exists v. split; [exact Hv |]. split; [apply lookup_unique; assumption |].
  unfold interpolate_one. rewrite (proj2 (contains_In _ _) Hin).
  unfold getitem. rewrite (filter_label_unique s t v Hnd Hv). reflexivity.
Qed.

(** X17. When the series has distinct labels and every date of the
    annotation map is one of them, [add_lines] does not fail: it draws one
    annotation per entry, in order, each at the value that the series
    stores at its date and placed according to its position. *)
Theorem add_lines_on_labels (config_dates : Lines) (sample : Series)
    (lines : Lines) (alternate : bool) (w : World) :
  NoDup (index sample) ->
  Forall (fun e => In (fst e) (index sample)) lines ->
  exists drawing,
    add_lines config_dates sample (Some lines) alternate w =
      (drawn w drawing, Ok tt) /\
    length drawing = length lines /\
    (forall j date text,
        nth_error lines j = Some (date, text) ->
        exists v,
          In (date, v) sample /\
          nth_error drawing j =
            Some (Annotation text (date, Scalar (Some v))
                    (fst (placement j alternate)) (snd (placement j alternate)))).
Proof.
  intros Hnd Hall.
  set (ys := map (fun e : Timestamp * string => Scalar (lookup sample (fst e))) lines).
  assert (H2 : Forall2 (fun e y => interpolate_one sample (fst e) = Ok y) lines ys).
  { unfold ys. clear ys. induction Hall as [| e lines He _ IH]; simpl; constructor.
    - destruct (interpolate_one_label sample (fst e) Hnd He) as (v & _ & -> & E).
      exact E.
    - exact IH. }
  exists (labels alternate 0 lines ys). split; [| split].
  - unfold add_lines. apply add_lines_from_all. exact H2.
  - apply labels_length. unfold ys. apply length_map.
  - intros j date text Hj.
    rewrite Forall_forall in Hall.
    assert (Hin : In (date, text) lines) by (eapply nth_error_In; exact Hj).
    destruct (interpolate_one_label sample date Hnd (Hall _ Hin)) as (v & Hv & El & _).
    exists v. split; [exact Hv |].
    rewrite (labels_nth alternate lines ys 0 j date text (Scalar (Some v)) Hj).
    + reflexivity.
    + unfold ys. rewrite nth_error_map, Hj. simpl. rewrite El. reflexivity.
Qed.

Lemma add_lines_on_labels_witness :
  let sample := [(4 * DAY + 60, 8%Q); (3600, 2%Q)] in
  let w := mkWorld [] [] [] [] [] in
  exists drawing,
    add_lines [] sample (Some [(3600, "first"%string); (4 * DAY + 60, "last"%string)])
      true w = (drawn w drawing, Ok tt) /\
    length drawing = 2%nat /\
    (forall j date text,
        nth_error [(3600, "first"%string); (4 * DAY + 60, "last"%string)] j
          = Some (date, text) ->
        exists v,
          In (date, v) sample /\
          nth_error drawing j =
            Some (Annotation text (date, Scalar (Some v))
                    (fst (placement j true)) (snd (placement j true)))).
Proof.
  intros sample w.
  apply (add_lines_on_labels [] sample
           [(3600, "first"%string); (4 * DAY + 60, "last"%string)] true w).
  - repeat constructor; simpl; intuition discriminate.
  - repeat constructor; simpl; tauto.
Defined.

End Composition.
